(** * The C tracer of coverage.py ([coverage/tracer.c])

    A shallow embedding of the [Tracer] extension type and of its trace
    function [Tracer_trace], followed by the properties of the bookkeeping
    it performs: call-depth tracking, memoised [should_trace] decisions,
    line recording and the pyexpat work-around.

    Conventions of the embedding.
    - C [int]s are integers of [Z].  Signed overflow is undefined in C, so
      the two additions that can overflow ([depth++] and
      [tracenames_alloc + TRACENAMES_DELTA]) go through [int_add], which
      has no result outside the [int] range.
    - [tracenames] is a heap block of [PyObject *]: a list of [slot]s.
      A slot that was never written is [Indeterminate]; reading such a
      slot, or indexing outside the block, is undefined behaviour and
      makes the whole call [Undefined].
    - Reference counts are not represented ([Py_INCREF], [Py_DECREF] and
      [Py_XDECREF] only appear through the read of the pointer they are
      applied to).
    - [PyDict_SetItem], [PyTuple_New], [PyInt_FromLong] and
      [Py_BuildValue] are taken to succeed; the two external calls whose
      failure the C code tests for, [PyMem_Realloc] and the call of
      [should_trace], can fail in the model.
    - [should_trace] is a function of its two arguments and leaves the
      Tracer alone; nobody but the trace function writes to the two
      dictionaries while it runs.
    - The target is LP64, so that [bigger * sizeof(PyObject * )] cannot
      wrap in [size_t] for an [int] [bigger]. *)

From Stdlib Require Import ZArith String Ascii List Lia Bool.
From stdpp Require Import gmap strings list fin_maps.

Local Open Scope Z_scope.

(** ** Python objects *)

(** The objects [should_trace] can hand back.  Only the distinction made
    by [PyString_Check] matters to the tracer. *)
Inductive PyObject : Type :=
| PyString (s : string)
| PyUnicode (s : string)
| PyInt (n : Z)
| PyBool (b : bool)
| PyNone.

Definition PyString_Check (o : PyObject) : bool :=
  match o with
  | PyString _ => true
  | _ => false
  end.

(** Python's truth value of an object ([PyObject_IsTrue]); the tracer
    never calls it, it is here to speak about falsy results. *)
Definition PyObject_IsTrue (o : PyObject) : bool :=
  match o with
  | PyString s => negb (String.eqb s "")
  | PyUnicode s => negb (String.eqb s "")
  | PyInt n => negb (n =? 0)
  | PyBool b => b
  | PyNone => false
  end.

(** [PyString_AS_STRING]: the bytes of a Python string seen as a C string,
    that is up to the first NUL. *)
Fixpoint PyString_AS_STRING (s : string) : string :=
  match s with
  | EmptyString => EmptyString
  | String c s' =>
      if Ascii.eqb c Ascii.zero then EmptyString
      else String c (PyString_AS_STRING s')
  end.

(** [strstr(haystack, needle) != NULL]. *)
Fixpoint strstr (haystack needle : string) : bool :=
  String.prefix needle haystack ||
  match haystack with
  | EmptyString => false
  | String _ rest => strstr rest needle
  end.

(** The part of a frame the tracer looks at: [frame->f_code->co_filename]
    and [frame->f_lineno].  [f_rest] stands for everything else in the
    frame, which only [should_trace] may inspect: two frames of one file
    and line can get different answers from it. *)
Record PyFrameObject : Type := mkFrame {
  co_filename : string;
  f_lineno : Z;
  f_rest : nat
}.

(** ** The Tracer type *)

Definition PyTrace_CALL : Z := 0.
Definition PyTrace_EXCEPTION : Z := 1.
Definition PyTrace_LINE : Z := 2.
Definition PyTrace_RETURN : Z := 3.

Definition TRACENAMES_DELTA : Z := 100.

Definition INT_MIN : Z := -2147483648.
Definition INT_MAX : Z := 2147483647.

(** One entry of [tracenames]: the filename to record at that level, or
    [NULL] if not recording.  The code only ever stores string objects. *)
Inductive slot : Type :=
| Indeterminate
| NULL
| Name (tracename : string).

(** [should_trace] is the Python callable [should_trace(filename, frame)];
    [None] is the NULL of a call that raised.  [data] is the dictionary of
    [(tracename, lineno)] keys, [should_trace_cache] the dictionary of
    [should_trace] results by filename. *)
Record Tracer : Type := mkTracer {
  should_trace : string -> PyFrameObject -> option PyObject;
  data : gmap (string * Z) PyObject;
  should_trace_cache : gmap string PyObject;
  started : bool;
  depth : Z;
  tracenames : list slot;
  tracenames_alloc : Z
}.

Definition with_data (d : gmap (string * Z) PyObject) (self : Tracer) : Tracer :=
  mkTracer (should_trace self) d (should_trace_cache self) (started self)
           (depth self) (tracenames self) (tracenames_alloc self).

Definition with_cache (c : gmap string PyObject) (self : Tracer) : Tracer :=
  mkTracer (should_trace self) (data self) c (started self)
           (depth self) (tracenames self) (tracenames_alloc self).

Definition with_started (b : bool) (self : Tracer) : Tracer :=
  mkTracer (should_trace self) (data self) (should_trace_cache self) b
           (depth self) (tracenames self) (tracenames_alloc self).

Definition with_depth (d : Z) (self : Tracer) : Tracer :=
  mkTracer (should_trace self) (data self) (should_trace_cache self)
           (started self) d (tracenames self) (tracenames_alloc self).

Definition with_tracenames (t : list slot) (n : Z) (self : Tracer) : Tracer :=
  mkTracer (should_trace self) (data self) (should_trace_cache self)
           (started self) (depth self) t n.

(** ** Memory and integers *)

Definition int_add (a b : Z) : option Z :=
  let r := a + b in
  if (INT_MIN <=? r) && (r <=? INT_MAX) then Some r else None.

(** [PyMem_Malloc(n * sizeof(PyObject * ))]: [n] fresh entries, or NULL
    when the heap cannot serve the request. *)
Definition PyMem_Malloc (heap : bool) (n : Z) : option (list slot) :=
  if heap then Some (replicate (Z.to_nat n) Indeterminate) else None.

(** [PyMem_Realloc(p, n * sizeof(PyObject * ))]: the old contents are kept
    up to the smaller of the two sizes and the rest is fresh; on failure
    the result is NULL and [p] is left as it was. *)
Definition PyMem_Realloc (heap : bool) (p : list slot) (n : Z) : option (list slot) :=
  if heap
  then Some (take (Z.to_nat n) p ++
             replicate (Z.to_nat n - length p)%nat Indeterminate)
  else None.

(** [p[i]] as an rvalue and [p[i] = v]. *)
Definition read_slot (p : list slot) (i : Z) : option slot :=
  if 0 <=? i then p !! Z.to_nat i else None.

Definition write_slot (p : list slot) (i : Z) (v : slot) : option (list slot) :=
  if (0 <=? i) && (i <? Z.of_nat (length p))
  then Some (<[Z.to_nat i := v]> p)
  else None.

(** ** Tracer_init, Tracer_start, Tracer_stop *)

(** [Tracer_init] leaves the three object members NULL; the Python side
    assigns them (they are writable members) before [start()].  The model
    takes the assigned values as arguments.  [None] is the [-1] result. *)
Definition Tracer_init (heap : bool)
    (st : string -> PyFrameObject -> option PyObject)
    (d : gmap (string * Z) PyObject) (c : gmap string PyObject) : option Tracer :=
  match PyMem_Malloc heap TRACENAMES_DELTA with
  | None => None
  | Some p => Some (mkTracer st d c false (-1) p TRACENAMES_DELTA)
  end.

Definition Tracer_start (self : Tracer) : Tracer := with_started true self.

Definition Tracer_stop (self : Tracer) : Tracer :=
  if started self then with_started false self else self.

(** ** Tracer_trace *)

(** What an observer of one call of the trace function can see besides the
    new state: each entry into [Tracer_trace] (the line [WHAT_LOG] prints)
    and each call of [should_trace] with its result. *)
Inductive action : Type :=
| Enter (what : Z)
| Ask (filename : string) (answer : option PyObject).

Inductive outcome : Type :=
| Returned (rc : Z) (self : Tracer) (log : list action)
| Undefined.

(** How the [switch] statement is left: by [break] (or by matching no
    case), or by a [return] inside a case. *)
Inductive flow : Type :=
| Break (self : Tracer) (log : list action)
| Exit (o : outcome).

Inductive grown : Type :=
| Grown (self : Tracer)
| NoMemory
| Overflow.

(** "We've outgrown our tracenames array: make it bigger." *)
Definition grow_tracenames (heap : bool) (self : Tracer) : grown :=
  match int_add (tracenames_alloc self) TRACENAMES_DELTA with
  | None => Overflow
  | Some bigger =>
      match PyMem_Realloc heap (tracenames self) bigger with
      | None => NoMemory
      | Some bigger_tracenames =>
          Grown (with_tracenames bigger_tracenames bigger self)
      end
  end.

(** "Check if we should trace this line": the cache first, [should_trace]
    on a miss, whose result goes into the cache as it is. *)
Definition lookup_tracename (self : Tracer) (frame : PyFrameObject)
    : option PyObject * Tracer * list action :=
  let filename := co_filename frame in
  match should_trace_cache self !! filename with
  | Some tracename => (Some tracename, self, [])
  | None =>
      match should_trace self filename frame with
      | None => (None, self, [Ask filename None])
      | Some tracename =>
          (Some tracename,
           with_cache (<[filename := tracename]> (should_trace_cache self)) self,
           [Ask filename (Some tracename)])
      end
  end.

(** "If tracename is a string, then we're supposed to trace." *)
Definition slot_of (tracename : PyObject) : slot :=
  match tracename with
  | PyString s => Name s
  | _ => NULL
  end.

Definition store_tracename (self : Tracer) (tracename : PyObject) : option Tracer :=
  match write_slot (tracenames self) (depth self) (slot_of tracename) with
  | None => None
  | Some t => Some (with_tracenames t (tracenames_alloc self) self)
  end.

(** What remains of the Call case once [depth] is incremented and the
    array is large enough: the lookup, then the store. *)
Definition resolve_and_store (self2 : Tracer) (frame : PyFrameObject) : flow :=
  match lookup_tracename self2 frame with
  | (None, self3, log) => Exit (Returned (-1) self3 log)
  | (Some tracename, self3, log) =>
      match store_tracename self3 tracename with
      | None => Exit Undefined
      | Some self4 => Break self4 log
      end
  end.

Definition case_CALL (heap : bool) (self : Tracer) (frame : PyFrameObject) : flow :=
  match int_add (depth self) 1 with
  | None => Exit Undefined
  | Some d =>
      let self1 := with_depth d self in
      let g := if tracenames_alloc self1 <=? depth self1
               then grow_tracenames heap self1
               else Grown self1 in
      match g with
      | Overflow => Exit Undefined
      | NoMemory => Exit (Returned (-1) (with_depth (depth self1 - 1) self1) [])
      | Grown self2 => resolve_and_store self2 frame
      end
  end.

Definition case_RETURN (self : Tracer) : flow :=
  if 0 <=? depth self then
    match read_slot (tracenames self) (depth self) with
    | Some NULL | Some (Name _) => Break (with_depth (depth self - 1) self) []
    | Some Indeterminate | None => Exit Undefined
    end
  else Break self [].

Definition case_LINE (self : Tracer) (frame : PyFrameObject) : flow :=
  if 0 <=? depth self then
    match read_slot (tracenames self) (depth self) with
    | Some (Name tracename) =>
        Break (with_data (<[(tracename, f_lineno frame) := PyNone]> (data self)) self) []
    | Some NULL => Break self []
    | Some Indeterminate | None => Exit Undefined
    end
  else Break self [].

Definition switch (heap : bool) (self : Tracer) (frame : PyFrameObject) (what : Z) : flow :=
  if what =? PyTrace_CALL then case_CALL heap self frame
  else if what =? PyTrace_RETURN then case_RETURN self
  else if what =? PyTrace_LINE then case_LINE self frame
  else Break self [].

Definition is_pyexpat (frame : PyFrameObject) : bool :=
  strstr (PyString_AS_STRING (co_filename frame)) "pyexpat.c".

(** The trace function calls itself for the injected RETURN; [fuel]
    bounds the nesting of these calls and [None] means it ran out.
    [heap] tells whether [PyMem_Realloc], if this call reaches it, can
    serve the request.  The [arg] parameter of the C function is only
    passed along and is left out. *)
Fixpoint Tracer_trace_fuel (fuel : nat) (heap : bool) (self : Tracer)
    (frame : PyFrameObject) (what : Z) : option outcome :=
  match fuel with
  | O => None
  | S fuel' =>
      match switch heap self frame what with
      | Exit Undefined => Some Undefined
      | Exit (Returned rc self1 log) => Some (Returned rc self1 (Enter what :: log))
      | Break self1 log =>
          if (what =? PyTrace_EXCEPTION) && is_pyexpat frame then
            match Tracer_trace_fuel fuel' heap self1 frame PyTrace_RETURN with
            | None => None
            | Some Undefined => Some Undefined
            | Some (Returned rc self2 log2) =>
                if rc <? 0
                then Some (Returned (-1) self2 (Enter what :: log ++ log2))
                else Some (Returned 0 self2 (Enter what :: log ++ log2))
            end
          else Some (Returned 0 self1 (Enter what :: log))
      end
  end.

(** Two levels are enough (lemma [Tracer_trace_fuel_enough] below). *)
Definition Tracer_trace (heap : bool) (self : Tracer) (frame : PyFrameObject)
    (what : Z) : outcome :=
  match Tracer_trace_fuel 2 heap self frame what with
  | Some o => o
  | None => Undefined
  end.

(** ** Sequences of events *)

(** One invocation of the trace function by the interpreter. *)
Record Event : Type := mkEvent {
  ev_frame : PyFrameObject;
  ev_what : Z;
  ev_heap : bool
}.

(** The interpreter keeps calling the trace function whatever it returns:
    [run] feeds the events in order and collects the return codes and the
    log.  [None] when one of the calls is undefined. *)
Fixpoint run (evs : list Event) (self : Tracer)
    : option (Tracer * list Z * list action) :=
  match evs with
  | [] => Some (self, [], [])
  | e :: evs' =>
      match Tracer_trace (ev_heap e) self (ev_frame e) (ev_what e) with
      | Undefined => None
      | Returned rc self1 log =>
          match run evs' self1 with
          | None => None
          | Some (self2, rcs, log') => Some (self2, rc :: rcs, log ++ log')
          end
      end
  end.

(** Properly nested sequences of Call and Return events: [nested n evs]
    when [evs], read after [n] calls that are still open, closes every
    call exactly once, never closes a call that is not open, and holds no
    other kind of event. *)
Fixpoint nested (open : nat) (evs : list Event) : bool :=
  match evs with
  | [] => Nat.eqb open 0
  | e :: evs' =>
      if ev_what e =? PyTrace_CALL then nested (S open) evs'
      else if ev_what e =? PyTrace_RETURN then
        match open with
        | O => false
        | S open' => nested open' evs'
        end
      else false
  end.

(** Counting the calls of [should_trace] in a log. *)
Definition asks (filename : string) (a : action) : bool :=
  match a with
  | Ask f _ => String.eqb f filename
  | Enter _ => false
  end.

Definition invocations (filename : string) (log : list action) : nat :=
  length (List.filter (asks filename) log).

(** ** The representation invariant

    [tracenames] has [tracenames_alloc] entries, [depth] is [-1] or an
    index into them, and the allocation count is an [int]. *)
Definition tracenames_ok (self : Tracer) : Prop :=
  Z.of_nat (length (tracenames self)) = tracenames_alloc self /\
  -1 <= depth self < tracenames_alloc self /\
  tracenames_alloc self <= INT_MAX.

(** Every level in use holds a pointer that was written. *)
Definition levels_written (self : Tracer) : Prop :=
  forall i, 0 <= i <= depth self ->
    exists v, read_slot (tracenames self) i = Some v /\ v <> Indeterminate.

(** The states a Call passes through: [entered] after [depth++],
    [enlarged] after a successful reallocation, [pushed] when the array is
    known to hold the new level. *)
Definition entered (self : Tracer) : Tracer :=
  with_depth (depth self + 1) self.

Definition enlarged (self : Tracer) : Tracer :=
  with_tracenames
    (tracenames self ++ replicate (Z.to_nat TRACENAMES_DELTA) Indeterminate)
    (tracenames_alloc self + TRACENAMES_DELTA) self.

Definition outgrown (self : Tracer) : bool :=
  tracenames_alloc self <=? depth self + 1.

Definition pushed (self : Tracer) : Tracer :=
  if outgrown self then enlarged (entered self) else entered self.

(** The array can take one more level: there is room already, or the
    allocator serves the request and the new count is an [int]. *)
Definition can_push (heap : bool) (self : Tracer) : Prop :=
  outgrown self = false \/
  (heap = true /\ tracenames_alloc self + TRACENAMES_DELTA <= INT_MAX).

(** The state a Call ends in when it succeeds with decision [r]:
    [c] is the cache at that point. *)
Definition stored (r : PyObject) (c : gmap string PyObject) (self2 : Tracer) : Tracer :=
  with_tracenames (<[Z.to_nat (depth self2) := slot_of r]> (tracenames self2))
                  (tracenames_alloc self2) (with_cache c self2).

(** The calls of [should_trace] one event can make, read off the log. *)
Inductive memo_step (self : Tracer) (frame : PyFrameObject) (what : Z)
    (self' : Tracer) (log : list action) : Prop :=
| memo_quiet :
    should_trace_cache self' = should_trace_cache self ->
    log = [Enter what] \/ log = [Enter PyTrace_EXCEPTION; Enter PyTrace_RETURN] ->
    memo_step self frame what self' log
| memo_failed :
    what = PyTrace_CALL ->
    should_trace_cache self !! co_filename frame = None ->
    should_trace self (co_filename frame) frame = None ->
    should_trace_cache self' = should_trace_cache self ->
    log = [Enter PyTrace_CALL; Ask (co_filename frame) None] ->
    memo_step self frame what self' log
| memo_answered r :
    what = PyTrace_CALL ->
    should_trace_cache self !! co_filename frame = None ->
    should_trace self (co_filename frame) frame = Some r ->
    should_trace_cache self' = <[co_filename frame := r]> (should_trace_cache self) ->
    log = [Enter PyTrace_CALL; Ask (co_filename frame) (Some r)] ->
    memo_step self frame what self' log.

(** [should_trace] does not raise on any Call of [evs] that finds the
    filename missing from the cache of [self]. *)
Definition never_fails_on (self : Tracer) (evs : list Event) : Prop :=
  forall e, In e evs ->
    ev_what e = PyTrace_CALL ->
    should_trace_cache self !! co_filename (ev_frame e) = None ->
    should_trace self (co_filename (ev_frame e)) (ev_frame e) <> None.

(** ** A small configuration to run the model on

    [example_should_trace] traces "a.py" under its own name, declines
    "b.py" and "pyexpat.c", answers "empty.py" with the empty string and
    "flag.py" with [True], and raises on everything else. *)
Definition example_should_trace (filename : string) (frame : PyFrameObject)
    : option PyObject :=
  if String.eqb filename "a.py" then Some (PyString "a.py")
  else if String.eqb filename "b.py" then Some (PyBool false)
  else if String.eqb filename "pyexpat.c" then Some PyNone
  else if String.eqb filename "empty.py" then Some (PyString "")
  else if String.eqb filename "flag.py" then Some (PyBool true)
  else None.

(** A Tracer as [Tracer_init] and [start()] leave it, with empty
    dictionaries. *)
Definition example_tracer : Tracer :=
  mkTracer example_should_trace ∅ ∅ true (-1)
           (replicate 100 Indeterminate) 100.

(** A Tracer whose two-entry array is full. *)
Definition full_tracer : Tracer :=
  mkTracer example_should_trace ∅ (<["a.py" := PyString "a.py"]> ∅) true 1
           [Name "a.py"; Name "a.py"] 2.

(** [example_tracer] after a Call for "a.py" and its Return. *)
Definition stale_tracer : Tracer :=
  mkTracer example_should_trace ∅ (<["a.py" := PyString "a.py"]> ∅) true (-1)
           (Name "a.py" :: replicate 99 Indeterminate) 100.

(** [example_tracer] inside a call of "a.py". *)
Definition tracing_tracer : Tracer :=
  mkTracer example_should_trace ∅ (<["a.py" := PyString "a.py"]> ∅) true 0
           (Name "a.py" :: replicate 99 Indeterminate) 100.

(** ... and inside a call of "b.py" made from there. *)
Definition skipping_tracer : Tracer :=
  mkTracer example_should_trace ∅
           (<["b.py" := PyBool false]> (<["a.py" := PyString "a.py"]> ∅)) true 1
           (Name "a.py" :: NULL :: replicate 98 Indeterminate) 100.

Definition event (filename : string) (lineno : Z) (what : Z) : Event :=
  mkEvent (mkFrame filename lineno 0) what true.

(** Call(a.py), Line(a.py,10), Call(b.py), Line(b.py,5), Return,
    Line(a.py,11), Return. *)
Definition scenario : list Event :=
  [event "a.py" 9 PyTrace_CALL; event "a.py" 10 PyTrace_LINE;
   event "b.py" 4 PyTrace_CALL; event "b.py" 5 PyTrace_LINE;
   event "b.py" 5 PyTrace_RETURN;
   event "a.py" 11 PyTrace_LINE; event "a.py" 11 PyTrace_RETURN].

(** [full_tracer] after one more Call for "a.py" with memory to spare. *)
Definition grown_tracer : Tracer :=
  stored (PyString "a.py") (should_trace_cache full_tracer) (pushed full_tracer).

(** A call of "a.py" that calls "b.py". *)
Definition nested_calls : list Event :=
  [event "a.py" 9 PyTrace_CALL; event "b.py" 4 PyTrace_CALL;
   event "b.py" 5 PyTrace_RETURN; event "a.py" 11 PyTrace_RETURN].

(** Every name held anywhere in the array, at a level in use or left over
    above it, is a string the cache holds for some file. *)
Definition names_cached (self : Tracer) : Prop :=
  forall i tracename,
    tracenames self !! i = Some (Name tracename) ->
    exists filename,
      should_trace_cache self !! filename = Some (PyString tracename).

(** The dictionary after the lines of [lines] are recorded under
    [tracename], in order. *)
Definition record_lines (tracename : string) (lines : list Event)
    (d : gmap (string * Z) PyObject) : gmap (string * Z) PyObject :=
  foldl (fun d e => <[(tracename, f_lineno (ev_frame e)) := PyNone]> d) d lines.

(** What a slot makes of the lines that follow. *)
Definition recorded (v : slot) (lines : list Event)
    (d : gmap (string * Z) PyObject) : gmap (string * Z) PyObject :=
  match v with
  | Name tracename => record_lines tracename lines d
  | _ => d
  end.

(** The events that pop a level when there is one: a Return, and the
    Exception of a pyexpat frame. *)
Definition pops (what : Z) (frame : PyFrameObject) : bool :=
  (what =? PyTrace_RETURN) || ((what =? PyTrace_EXCEPTION) && is_pyexpat frame).

(** Properly nested traces with events of every kind: each Call is closed
    once, by an event that pops; Line events, Exceptions of other files
    and events of other kinds may come anywhere. *)
Fixpoint well_nested (open : nat) (evs : list Event) : bool :=
  match evs with
  | [] => Nat.eqb open 0
  | e :: evs' =>
      if ev_what e =? PyTrace_CALL then well_nested (S open) evs'
      else if pops (ev_what e) (ev_frame e) then
        match open with
        | O => false
        | S open' => well_nested open' evs'
        end
      else well_nested open evs'
  end.

(** ** The interpreter's trace hook, Tracer_dealloc *)

(** [PyEval_SetTrace(func, obj)] makes [obj] the trace object of the
    thread, or clears the hook when given NULLs.  The hook is modelled by
    the address of the object that is registered. *)
Definition PyEval_SetTrace (obj : option nat) (hook : option nat) : option nat :=
  obj.

(** [Tracer_start] and [Tracer_stop] with their effect on the hook; [addr]
    is the address of [self]. *)
Definition Tracer_start_hook (addr : nat) (self : Tracer) (hook : option nat)
    : Tracer * option nat :=
  (Tracer_start self, PyEval_SetTrace (Some addr) hook).

Definition Tracer_stop_hook (self : Tracer) (hook : option nat)
    : Tracer * option nat :=
  if started self
  then (with_started false self, PyEval_SetTrace None hook)
  else (self, hook).

(** The loop of [Tracer_dealloc]: [Py_XDECREF] on the slot of every level
    from [depth] down to 0.  The result lists the names whose reference is
    dropped, in that order. *)
Inductive released : Type :=
| Released (names : list string)
| BadPointer
| OutOfFuel.

Fixpoint release_levels (fuel : nat) (self : Tracer) : released :=
  match fuel with
  | O => OutOfFuel
  | S fuel' =>
      if 0 <=? depth self then
        match read_slot (tracenames self) (depth self) with
        | Some NULL => release_levels fuel' (with_depth (depth self - 1) self)
        | Some (Name tracename) =>
            match release_levels fuel' (with_depth (depth self - 1) self) with
            | Released names => Released (tracename :: names)
            | r => r
            end
        | Some Indeterminate | None => BadPointer
        end
      else Released []
  end.

(** [Tracer_dealloc]: the hook is cleared if the Tracer is started, the
    levels are released, the array is freed.  The result is the hook and
    the names released; [None] when a pointer that was never written is
    released.  (The three object members are released too; they are not
    represented.)  The loop runs at most [depth + 1] times. *)
Definition Tracer_dealloc (self : Tracer) (hook : option nat)
    : option (option nat * list string) :=
  let hook' := if started self then PyEval_SetTrace None hook else hook in
  match release_levels (S (Z.to_nat (depth self + 1))) self with
  | Released names => Some (hook', names)
  | BadPointer | OutOfFuel => None
  end.

(** The names held by a piece of the array. *)
Fixpoint names_in (p : list slot) : list string :=
  match p with
  | [] => []
  | Name tracename :: p' => tracename :: names_in p'
  | _ :: p' => names_in p'
  end.

(** The Tracer with another callable assigned to its [should_trace]
    member. *)
Definition with_should_trace (st : string -> PyFrameObject -> option PyObject)
    (self : Tracer) : Tracer :=
  mkTracer st (data self) (should_trace_cache self) (started self)
           (depth self) (tracenames self) (tracenames_alloc self).

(** More of the example configuration: a frame of pyexpat, 101 calls
    nested in one another, a trace with events of every kind, and two
    runs of Line events that hit the same lines. *)
Definition pyexpat_frame : PyFrameObject :=
  mkFrame "/usr/lib/python2.6/lib-dynload/pyexpat.c" 1 0.

Definition deep_calls : list Event :=
  repeat (event "a.py" 1 PyTrace_CALL) 101.

Definition mixed_trace : list Event :=
  [event "a.py" 9 PyTrace_CALL; event "a.py" 10 PyTrace_LINE;
   event "pyexpat.c" 1 PyTrace_CALL; event "pyexpat.c" 1 PyTrace_EXCEPTION;
   event "a.py" 11 PyTrace_EXCEPTION; event "a.py" 12 4;
   event "a.py" 12 PyTrace_RETURN].

Definition lines_once : list Event :=
  [event "a.py" 10 PyTrace_LINE; event "a.py" 11 PyTrace_LINE].

Definition lines_again : list Event :=
  [event "a.py" 11 PyTrace_LINE; event "a.py" 10 PyTrace_LINE;
   event "a.py" 11 PyTrace_LINE].

(** What the scenario logs. *)
Definition scenario_log : list action :=
  [Enter PyTrace_CALL; Ask "a.py" (Some (PyString "a.py"));
   Enter PyTrace_LINE;
   Enter PyTrace_CALL; Ask "b.py" (Some (PyBool false));
   Enter PyTrace_LINE; Enter PyTrace_RETURN;
   Enter PyTrace_LINE; Enter PyTrace_RETURN].

(** * Properties *)

(** ** Integers and slots *)

Lemma int_add_Some a b :
  INT_MIN <= a + b <= INT_MAX -> int_add a b = Some (a + b).
Proof.
  intros [Hlo Hhi]. unfold int_add.
  apply Z.leb_le in Hlo. apply Z.leb_le in Hhi.
  now rewrite Hlo, Hhi.
Qed.

Lemma read_slot_lookup (p : list slot) i :
  0 <= i -> read_slot p i = p !! Z.to_nat i.
Proof. intros H. unfold read_slot. apply Z.leb_le in H. now rewrite H. Qed.

Lemma read_slot_app (p q : list slot) i :
  i < Z.of_nat (length p) -> read_slot (p ++ q) i = read_slot p i.
Proof.
  intros H. unfold read_slot. destruct (0 <=? i) eqn:Hi; [|reflexivity].
  apply Z.leb_le in Hi. apply lookup_app_l. lia.
Qed.

Lemma read_slot_fresh (p : list slot) n i :
  Z.of_nat (length p) <= i < Z.of_nat (length p) + Z.of_nat n ->
  read_slot (p ++ replicate n Indeterminate) i = Some Indeterminate.
Proof.
  intros H. rewrite read_slot_lookup by lia.
  rewrite lookup_app_r by lia. apply lookup_replicate_2. lia.
Qed.

Lemma write_slot_Some (p : list slot) i v :
  0 <= i < Z.of_nat (length p) ->
  write_slot p i v = Some (<[Z.to_nat i := v]> p).
Proof.
  intros [Hlo Hhi]. unfold write_slot.
  apply Z.leb_le in Hlo. apply Z.ltb_lt in Hhi. now rewrite Hlo, Hhi.
Qed.

Lemma read_write_same (p : list slot) i v :
  0 <= i < Z.of_nat (length p) ->
  read_slot (<[Z.to_nat i := v]> p) i = Some v.
Proof.
  intros H. rewrite read_slot_lookup by lia.
  apply list_lookup_insert_eq. lia.
Qed.

Lemma read_write_other (p : list slot) i j v :
  0 <= i -> i <> j -> read_slot (<[Z.to_nat i := v]> p) j = read_slot p j.
Proof.
  intros Hi Hne. unfold read_slot. destruct (0 <=? j) eqn:Hj; [|reflexivity].
  apply Z.leb_le in Hj. apply list_lookup_insert_ne. lia.
Qed.

Lemma PyMem_Realloc_exact (p : list slot) n :
  Z.of_nat (length p) <= n ->
  PyMem_Realloc true p n =
    Some (p ++ replicate (Z.to_nat (n - Z.of_nat (length p))) Indeterminate).
Proof.
  intros H. unfold PyMem_Realloc.
  rewrite take_ge by lia. do 3 f_equal. lia.
Qed.

Lemma slot_of_not_Indeterminate r : slot_of r <> Indeterminate.
Proof. now destruct r. Qed.

(** ** The trace function, event kind by event kind *)

Lemma Tracer_trace_CALL heap self frame :
  Tracer_trace heap self frame PyTrace_CALL =
    match case_CALL heap self frame with
    | Exit Undefined => Undefined
    | Exit (Returned rc s log) => Returned rc s (Enter PyTrace_CALL :: log)
    | Break s log => Returned 0 s (Enter PyTrace_CALL :: log)
    end.
Proof.
  unfold Tracer_trace. cbn.
  destruct (case_CALL heap self frame) as [s log|[rc s log|]]; reflexivity.
Qed.

Lemma case_RETURN_cases self :
  (depth self < 0 /\ case_RETURN self = Break self []) \/
  (0 <= depth self /\
   (exists v, read_slot (tracenames self) (depth self) = Some v /\ v <> Indeterminate) /\
   case_RETURN self = Break (with_depth (depth self - 1) self) []) \/
  (0 <= depth self /\
   (read_slot (tracenames self) (depth self) = Some Indeterminate \/
    read_slot (tracenames self) (depth self) = None) /\
   case_RETURN self = Exit Undefined).
Proof.
  unfold case_RETURN. destruct (0 <=? depth self) eqn:Hd.
  - apply Z.leb_le in Hd. right.
    destruct (read_slot (tracenames self) (depth self)) as [[| |t]|] eqn:Hr.
    + right. auto.
    + left. split; [assumption|]. split; [|reflexivity]. exists NULL. split; congruence.
    + left. split; [assumption|]. split; [|reflexivity]. exists (Name t). split; congruence.
    + right. auto.
  - apply Z.leb_gt in Hd. left. auto.
Qed.

Lemma Tracer_trace_RETURN heap self frame :
  Tracer_trace heap self frame PyTrace_RETURN =
    match case_RETURN self with
    | Break s _ => Returned 0 s [Enter PyTrace_RETURN]
    | Exit _ => Undefined
    end.
Proof.
  unfold Tracer_trace. cbn.
  destruct (case_RETURN_cases self) as [[_ ->]|[(_ & _ & ->)|(_ & _ & ->)]];
    reflexivity.
Qed.

Lemma case_LINE_cases self frame :
  (exists s, case_LINE self frame = Break s []) \/ case_LINE self frame = Exit Undefined.
Proof.
  unfold case_LINE. destruct (0 <=? depth self); [|eauto].
  destruct (read_slot (tracenames self) (depth self)) as [[| |t]|]; eauto.
Qed.

Lemma Tracer_trace_LINE heap self frame :
  Tracer_trace heap self frame PyTrace_LINE =
    match case_LINE self frame with
    | Break s _ => Returned 0 s [Enter PyTrace_LINE]
    | Exit _ => Undefined
    end.
Proof.
  unfold Tracer_trace. cbn.
  destruct (case_LINE_cases self frame) as [[s ->]| ->]; reflexivity.
Qed.

Lemma Tracer_trace_EXCEPTION heap self frame :
  Tracer_trace heap self frame PyTrace_EXCEPTION =
    if is_pyexpat frame then
      match Tracer_trace heap self frame PyTrace_RETURN with
      | Returned _ s log => Returned 0 s (Enter PyTrace_EXCEPTION :: log)
      | Undefined => Undefined
      end
    else Returned 0 self [Enter PyTrace_EXCEPTION].
Proof.
  rewrite Tracer_trace_RETURN. unfold Tracer_trace. cbn.
  destruct (is_pyexpat frame); [|reflexivity].
  destruct (case_RETURN_cases self) as [[_ ->]|[(_ & _ & ->)|(_ & _ & ->)]];
    reflexivity.
Qed.

Lemma Tracer_trace_other heap self frame what :
  what <> PyTrace_CALL -> what <> PyTrace_EXCEPTION ->
  what <> PyTrace_LINE -> what <> PyTrace_RETURN ->
  Tracer_trace heap self frame what = Returned 0 self [Enter what].
Proof.
  intros H0 H1 H2 H3. unfold Tracer_trace. cbn. unfold switch.
  apply Z.eqb_neq in H0, H1, H2, H3. now rewrite H0, H1, H2, H3.
Qed.

Lemma what_cases (what : Z) :
  what = PyTrace_CALL \/ what = PyTrace_EXCEPTION \/ what = PyTrace_LINE \/
  what = PyTrace_RETURN \/
  (what <> PyTrace_CALL /\ what <> PyTrace_EXCEPTION /\
   what <> PyTrace_LINE /\ what <> PyTrace_RETURN).
Proof. unfold PyTrace_CALL, PyTrace_EXCEPTION, PyTrace_LINE, PyTrace_RETURN. lia. Qed.

(** Case analysis on the kind of event, in the order of the lemmas above:
    CALL, EXCEPTION, LINE, RETURN, anything else. *)
Ltac by_what what :=
  destruct (what_cases what) as [->|[->|[->|[->|(? & ? & ? & ?)]]]].

(** The nested call for the injected RETURN is the only one: fuel 2 is
    never exhausted, and more fuel changes nothing. *)
Lemma Tracer_trace_fuel_enough n heap self frame what :
  Tracer_trace_fuel (2 + n) heap self frame what =
    Some (Tracer_trace heap self frame what).
Proof.
  unfold Tracer_trace.
  change (2 + n)%nat with (S (S n)).
  cbn [Tracer_trace_fuel].
  destruct (switch heap self frame what) as [s log|[rc s log|]]; try reflexivity.
  destruct ((what =? PyTrace_EXCEPTION) && is_pyexpat frame); [|reflexivity].
  change (switch heap s frame PyTrace_RETURN) with (case_RETURN s).
  destruct (case_RETURN_cases s) as [[_ ->]|[(_ & _ & ->)|(_ & _ & ->)]];
    reflexivity.
Qed.

(** ** The Call case *)

Lemma pushed_fields self :
  should_trace (pushed self) = should_trace self /\
  data (pushed self) = data self /\
  should_trace_cache (pushed self) = should_trace_cache self /\
  started (pushed self) = started self /\
  depth (pushed self) = depth self + 1.
Proof. unfold pushed. destruct (outgrown self); cbn; auto. Qed.

Lemma pushed_tracenames self i :
  i < Z.of_nat (length (tracenames self)) ->
  read_slot (tracenames (pushed self)) i = read_slot (tracenames self) i.
Proof.
  intros Hi. unfold pushed. destruct (outgrown self); cbn; [|reflexivity].
  now apply read_slot_app.
Qed.

Lemma stored_fields r c self2 :
  should_trace (stored r c self2) = should_trace self2 /\
  data (stored r c self2) = data self2 /\
  should_trace_cache (stored r c self2) = c /\
  started (stored r c self2) = started self2 /\
  depth (stored r c self2) = depth self2 /\
  tracenames_alloc (stored r c self2) = tracenames_alloc self2 /\
  tracenames (stored r c self2) =
    <[Z.to_nat (depth self2) := slot_of r]> (tracenames self2).
Proof. unfold stored. cbn. auto 10. Qed.

Lemma stored_ok r c self2 : tracenames_ok self2 -> tracenames_ok (stored r c self2).
Proof.
  unfold tracenames_ok, stored. cbn. now rewrite length_insert.
Qed.

Lemma lookup_tracename_cases self frame :
  let filename := co_filename frame in
  (exists r, should_trace_cache self !! filename = Some r /\
             lookup_tracename self frame = (Some r, self, [])) \/
  (should_trace_cache self !! filename = None /\
   should_trace self filename frame = None /\
   lookup_tracename self frame = (None, self, [Ask filename None])) \/
  (exists r, should_trace_cache self !! filename = None /\
             should_trace self filename frame = Some r /\
             lookup_tracename self frame =
               (Some r,
                with_cache (<[filename := r]> (should_trace_cache self)) self,
                [Ask filename (Some r)])).
Proof.
  cbn. unfold lookup_tracename.
  destruct (should_trace_cache self !! co_filename frame) as [r|] eqn:Hc.
  - left. eauto.
  - right. destruct (should_trace self (co_filename frame) frame) as [r|] eqn:Hs.
    + right. eauto.
    + left. auto.
Qed.

Lemma store_tracename_ok self r :
  0 <= depth self < Z.of_nat (length (tracenames self)) ->
  store_tracename self r =
    Some (with_tracenames (<[Z.to_nat (depth self) := slot_of r]> (tracenames self))
                          (tracenames_alloc self) self).
Proof. intros H. unfold store_tracename. now rewrite write_slot_Some. Qed.

Lemma resolve_and_store_cases self2 frame :
  0 <= depth self2 < Z.of_nat (length (tracenames self2)) ->
  let filename := co_filename frame in
  (exists r, should_trace_cache self2 !! filename = Some r /\
     resolve_and_store self2 frame =
       Break (stored r (should_trace_cache self2) self2) []) \/
  (should_trace_cache self2 !! filename = None /\
   should_trace self2 filename frame = None /\
   resolve_and_store self2 frame = Exit (Returned (-1) self2 [Ask filename None])) \/
  (exists r, should_trace_cache self2 !! filename = None /\
     should_trace self2 filename frame = Some r /\
     resolve_and_store self2 frame =
       Break (stored r (<[filename := r]> (should_trace_cache self2)) self2)
             [Ask filename (Some r)]).
Proof.
  intros Hd. cbn. unfold resolve_and_store.
  destruct (lookup_tracename_cases self2 frame)
    as [(r & Hc & ->)|[(Hc & Hs & ->)|(r & Hc & Hs & ->)]].
  - left. exists r. split; [assumption|].
    rewrite store_tracename_ok by assumption.
    unfold stored. now destruct self2.
  - right. left. auto.
  - right. right. exists r. split; [assumption|]. split; [assumption|].
    rewrite store_tracename_ok by (cbn; assumption). reflexivity.
Qed.

(** A Call on a Tracer that satisfies the invariant. *)
Section CallCase.

Context (heap : bool) (self : Tracer) (frame : PyFrameObject).
Hypothesis Hok : tracenames_ok self.

Lemma pushed_ok : can_push heap self -> tracenames_ok (pushed self).
Proof using Hok.
  destruct Hok as (Hlen & Hd & Hmax).
  intros Hpush. unfold pushed, can_push, outgrown in *.
  destruct (tracenames_alloc self <=? depth self + 1) eqn:Hout.
  - apply Z.leb_le in Hout. destruct Hpush as [?|[_ Hroom]]; [discriminate|].
    unfold tracenames_ok, enlarged, entered.
    cbn [tracenames tracenames_alloc depth with_tracenames with_depth].
    rewrite length_app, length_replicate.
    unfold TRACENAMES_DELTA in *. lia.
  - apply Z.leb_gt in Hout. unfold tracenames_ok. cbn. lia.
Qed.

Lemma pushed_fresh :
  outgrown self = true ->
  read_slot (tracenames (pushed self)) (depth self + 1) = Some Indeterminate.
Proof using Hok.
  destruct Hok as (Hlen & Hd & Hmax).
  intros Hout. unfold pushed. rewrite Hout. cbn.
  unfold outgrown in Hout. apply Z.leb_le in Hout.
  apply read_slot_fresh. unfold TRACENAMES_DELTA. lia.
Qed.

Lemma pushed_depth_in_range :
  can_push heap self ->
  0 <= depth (pushed self) < Z.of_nat (length (tracenames (pushed self))).
Proof using Hok.
  intros Hpush.
  destruct (pushed_ok Hpush) as (Hlen & Hd & _).
  destruct (pushed_fields self) as (_ & _ & _ & _ & Hdepth).
  destruct Hok as (_ & Hd0 & _). lia.
Qed.

Lemma case_CALL_cases :
  (outgrown self = true /\ INT_MAX < tracenames_alloc self + TRACENAMES_DELTA /\
   case_CALL heap self frame = Exit Undefined) \/
  (outgrown self = true /\ heap = false /\
   tracenames_alloc self + TRACENAMES_DELTA <= INT_MAX /\
   case_CALL heap self frame = Exit (Returned (-1) self [])) \/
  (can_push heap self /\
   case_CALL heap self frame = resolve_and_store (pushed self) frame).
Proof using Hok.
  destruct Hok as (Hlen & Hd & Hmax).
  unfold case_CALL, can_push, pushed, outgrown.
  rewrite int_add_Some by (unfold INT_MIN, INT_MAX in *; lia).
  cbn [tracenames_alloc depth with_depth].
  destruct (tracenames_alloc self <=? depth self + 1) eqn:Hout.
  - apply Z.leb_le in Hout. unfold grow_tracenames. cbn [tracenames_alloc with_depth].
    destruct (Z_le_gt_dec (tracenames_alloc self + TRACENAMES_DELTA) INT_MAX)
      as [Hroom|Hroom].
    + rewrite int_add_Some
        by (unfold INT_MIN, INT_MAX, TRACENAMES_DELTA in *; lia).
      destruct heap.
      * right. right. split; [auto|].
        cbn [tracenames with_depth].
        rewrite PyMem_Realloc_exact by (unfold TRACENAMES_DELTA; lia).
        unfold enlarged, entered.
        cbn [tracenames tracenames_alloc with_depth].
        replace (Z.to_nat (tracenames_alloc self + TRACENAMES_DELTA -
                           Z.of_nat (length (tracenames self))))
          with (Z.to_nat TRACENAMES_DELTA) by lia.
        reflexivity.
      * right. left. repeat split; auto.
        unfold PyMem_Realloc. do 2 f_equal.
        destruct self; unfold with_depth; cbn. f_equal. lia.
    + left. repeat split; [lia|].
      unfold int_add.
      replace (tracenames_alloc self + TRACENAMES_DELTA <=? INT_MAX) with false
        by (symmetry; apply Z.leb_gt; lia).
      now rewrite andb_false_r.
  - right. right. split; [auto|]. reflexivity.
Qed.

(** Every way the Call can go. *)
Lemma Tracer_trace_CALL_cases :
  let filename := co_filename frame in
  let t := Tracer_trace heap self frame PyTrace_CALL in
  (outgrown self = true /\ INT_MAX < tracenames_alloc self + TRACENAMES_DELTA /\
   t = Undefined) \/
  (outgrown self = true /\ heap = false /\
   tracenames_alloc self + TRACENAMES_DELTA <= INT_MAX /\
   t = Returned (-1) self [Enter PyTrace_CALL]) \/
  (can_push heap self /\
   ((exists r, should_trace_cache self !! filename = Some r /\
       t = Returned 0 (stored r (should_trace_cache self) (pushed self))
                    [Enter PyTrace_CALL]) \/
    (should_trace_cache self !! filename = None /\
     should_trace self filename frame = None /\
     t = Returned (-1) (pushed self) [Enter PyTrace_CALL; Ask filename None]) \/
    (exists r, should_trace_cache self !! filename = None /\
       should_trace self filename frame = Some r /\
       t = Returned 0
             (stored r (<[filename := r]> (should_trace_cache self)) (pushed self))
             [Enter PyTrace_CALL; Ask filename (Some r)]))).
Proof using Hok.
  cbn zeta. rewrite Tracer_trace_CALL.
  destruct case_CALL_cases
    as [(Hout & Hroom & ->)|[(Hout & Hheap & Hroom & ->)|(Hpush & ->)]].
  - left. auto.
  - right. left. auto.
  - right. right. split; [assumption|].
    pose proof (pushed_depth_in_range Hpush) as Hd.
    destruct (pushed_fields self) as (Hst & _ & Hc & _ & _).
    destruct (resolve_and_store_cases (pushed self) frame Hd)
      as [(r & Hhit & ->)|[(Hmiss & Hfail & ->)|(r & Hmiss & Hans & ->)]];
      rewrite Hc in *; rewrite ?Hst in *.
    + left. eauto.
    + right. left. auto.
    + right. right. eauto.
Qed.

(** The same, read from the result. *)
Lemma Tracer_trace_CALL_post rc self' log :
  Tracer_trace heap self frame PyTrace_CALL = Returned rc self' log ->
  (rc = -1 /\ self' = self) \/
  (rc = -1 /\ self' = pushed self /\ can_push heap self /\
   should_trace_cache self !! co_filename frame = None /\
   should_trace self (co_filename frame) frame = None) \/
  (rc = 0 /\ can_push heap self /\ exists r c, self' = stored r c (pushed self)).
Proof using Hok.
  intros Ht.
  destruct Tracer_trace_CALL_cases
    as [(_ & _ & Hu)|[(_ & _ & _ & Hr)|(Hpush & [(r & _ & Hr)|[(Hmiss & Hfail & Hr)|(r & _ & _ & Hr)]])]];
    rewrite Ht in *; try discriminate; inversion Hr; subst; eauto 10.
Qed.

End CallCase.

(** ** Return on an empty stack *)

(** C9.  With no frame tracked ([depth < 0]) a Return event is a silent
    no-op: the trace function returns 0 (no error) and the Tracer (depth,
    tracenames, cache, data and all) is exactly as before. *)
Theorem return_on_empty_stack_is_noop heap self frame :
  depth self < 0 ->
  Tracer_trace heap self frame PyTrace_RETURN = Returned 0 self [Enter PyTrace_RETURN].
Proof.
  intros Hd. rewrite Tracer_trace_RETURN.
  destruct (case_RETURN_cases self) as [[_ ->]|[(H & _)|(H & _)]];
    [reflexivity|lia|lia].
Qed.

(** ** Line events *)

(** C2.  A Line event at a level whose slot holds a tracename records
    [(tracename, f_lineno)] in [data] and changes nothing else; at a level
    whose slot is NULL (not recording), or with no frame tracked, the
    Tracer is exactly as before. *)
Theorem line_event_records_hit heap self frame :
  (forall tracename,
     0 <= depth self ->
     read_slot (tracenames self) (depth self) = Some (Name tracename) ->
     exists self',
       Tracer_trace heap self frame PyTrace_LINE =
         Returned 0 self' [Enter PyTrace_LINE] /\
       data self' !! (tracename, f_lineno frame) = Some PyNone /\
       self' = with_data (<[(tracename, f_lineno frame) := PyNone]> (data self)) self) /\
  (0 <= depth self ->
   read_slot (tracenames self) (depth self) = Some NULL ->
   Tracer_trace heap self frame PyTrace_LINE = Returned 0 self [Enter PyTrace_LINE]) /\
  (depth self < 0 ->
   Tracer_trace heap self frame PyTrace_LINE = Returned 0 self [Enter PyTrace_LINE]).
Proof.
  rewrite Tracer_trace_LINE. unfold case_LINE.
  repeat split.
  - intros tracename Hd Hslot. apply Z.leb_le in Hd. rewrite Hd, Hslot.
    eexists. split; [reflexivity|]. split; [|reflexivity].
    cbn. apply lookup_insert_eq.
  - intros Hd Hslot. apply Z.leb_le in Hd. now rewrite Hd, Hslot.
  - intros Hd. apply Z.leb_gt in Hd. now rewrite Hd.
Qed.

(** ** Failures during a Call *)

(** C7.  When the array has to grow and [PyMem_Realloc] fails, the trace
    function returns -1 and the Tracer is exactly as before the event:
    [depth] is back at its prior value and [tracenames] is untouched. *)
Theorem realloc_failure_restores_tracer self frame :
  tracenames_ok self ->
  outgrown self = true ->
  tracenames_alloc self + TRACENAMES_DELTA <= INT_MAX ->
  Tracer_trace false self frame PyTrace_CALL = Returned (-1) self [Enter PyTrace_CALL].
Proof.
  intros Hok Hout Hroom.
  destruct (Tracer_trace_CALL_cases false self frame Hok)
    as [(_ & Hover & _)|[(_ & _ & _ & Ht)|([Hpush|[Hpush _]] & _)]].
  - lia.
  - exact Ht.
  - congruence.
  - discriminate.
Qed.

(** C6.  When [should_trace] fails on a Call (a cache miss, the array
    having room for the new level), the trace function returns -1 at once;
    the cache is the one from before the event, so nothing is stored for
    that filename; [depth] stays incremented and the array stays as grown:
    the Tracer is [pushed self]. *)
Theorem should_trace_failure_propagates heap self frame :
  tracenames_ok self ->
  can_push heap self ->
  should_trace_cache self !! co_filename frame = None ->
  should_trace self (co_filename frame) frame = None ->
  exists self',
    Tracer_trace heap self frame PyTrace_CALL =
      Returned (-1) self' [Enter PyTrace_CALL; Ask (co_filename frame) None] /\
    should_trace_cache self' = should_trace_cache self /\
    should_trace_cache self' !! co_filename frame = None /\
    data self' = data self /\
    depth self' = depth self + 1 /\
    self' = pushed self.
Proof.
  intros Hok Hpush Hmiss Hfail.
  destruct (pushed_fields self) as (_ & Hdata & Hc & _ & Hdepth).
  exists (pushed self).
  destruct (Tracer_trace_CALL_cases heap self frame Hok)
    as [(Hout & Hover & _)|[(Hout & Hheap & _)|(_ & [(r & Hhit & _)|[(_ & _ & Ht)|(r & _ & Hans & _)]])]].
  - destruct Hpush as [?|[_ ?]]; [congruence|lia].
  - destruct Hpush as [?|[? _]]; congruence.
  - congruence.
  - rewrite Hc. auto 10.
  - congruence.
Qed.

(** C10.  When [should_trace] fails on a Call, [tracenames] is not written
    at the new level.  If the array had room, it is the array from before
    the event, so the new level still holds what an earlier, deeper call
    stored there; if the array had to grow, the new level is fresh memory.
    A Line event that follows at that level then records its line under
    the tracename left in the slot. *)
Theorem failed_call_keeps_stale_slot heap self frame :
  tracenames_ok self ->
  can_push heap self ->
  should_trace_cache self !! co_filename frame = None ->
  should_trace self (co_filename frame) frame = None ->
  exists self',
    Tracer_trace heap self frame PyTrace_CALL =
      Returned (-1) self' [Enter PyTrace_CALL; Ask (co_filename frame) None] /\
    depth self' = depth self + 1 /\
    (outgrown self = false -> tracenames self' = tracenames self) /\
    (outgrown self = true ->
     read_slot (tracenames self') (depth self') = Some Indeterminate) /\
    (forall heap' frame' stale,
       read_slot (tracenames self) (depth self + 1) = Some (Name stale) ->
       exists self'',
         Tracer_trace heap' self' frame' PyTrace_LINE =
           Returned 0 self'' [Enter PyTrace_LINE] /\
         data self'' !! (stale, f_lineno frame') = Some PyNone).
Proof.
  intros Hok Hpush Hmiss Hfail.
  destruct (pushed_fields self) as (_ & Hdata & Hc & _ & Hdepth).
  exists (pushed self).
  split; [|split; [assumption|split; [|split]]].
  - destruct (Tracer_trace_CALL_cases heap self frame Hok)
      as [(Hout & Hover & _)|[(Hout & Hheap & _)|(_ & [(r & Hhit & _)|[(_ & _ & Ht)|(r & _ & Hans & _)]])]].
    + destruct Hpush as [?|[_ ?]]; [congruence|lia].
    + destruct Hpush as [?|[? _]]; congruence.
    + congruence.
    + exact Ht.
    + congruence.
  - intros Hout. unfold pushed. now rewrite Hout.
  - intros Hout. rewrite Hdepth. now apply pushed_fresh.
  - intros heap' frame' stale Hstale.
    assert (Hin : depth self + 1 < Z.of_nat (length (tracenames self))).
    { unfold read_slot in Hstale.
      destruct (0 <=? depth self + 1) eqn:H0; [|discriminate].
      apply Z.leb_le in H0. apply lookup_lt_Some in Hstale. lia. }
    rewrite Tracer_trace_LINE. unfold case_LINE.
    rewrite Hdepth, pushed_tracenames by assumption.
    destruct Hok as (_ & Hd & _).
    replace (0 <=? depth self + 1) with true by (symmetry; apply Z.leb_le; lia).
    rewrite Hstale. eexists. split; [reflexivity|].
    cbn. apply lookup_insert_eq.
Qed.

(** ** The decision stored on a cache miss *)

(** C4, as the code has it.  On a cache miss where [should_trace] returns
    an object [r], the Call case is the lookup followed by the store: the
    lookup puts [r] itself in the cache under the filename and leaves
    [tracenames] alone; the store, which runs on the state the lookup
    produced, then writes the slot at the new level.
    The slot holds the name when [r] is a string object, the empty string
    included, and NULL for every other object. *)
Theorem stored_decision_is_string_check heap self frame r :
  tracenames_ok self ->
  can_push heap self ->
  should_trace_cache self !! co_filename frame = None ->
  should_trace self (co_filename frame) frame = Some r ->
  exists self3 self',
    case_CALL heap self frame = resolve_and_store (pushed self) frame /\
    lookup_tracename (pushed self) frame =
      (Some r, self3, [Ask (co_filename frame) (Some r)]) /\
    should_trace_cache self3 = <[co_filename frame := r]> (should_trace_cache self) /\
    tracenames self3 = tracenames (pushed self) /\
    store_tracename self3 r = Some self' /\
    Tracer_trace heap self frame PyTrace_CALL =
      Returned 0 self' [Enter PyTrace_CALL; Ask (co_filename frame) (Some r)] /\
    depth self' = depth self + 1 /\
    should_trace_cache self' !! co_filename frame = Some r /\
    read_slot (tracenames self') (depth self') = Some (slot_of r) /\
    (forall s, r = PyString s -> slot_of r = Name s) /\
    (PyString_Check r = false -> slot_of r = NULL).
Proof.
  intros Hok Hpush Hmiss Hans.
  destruct (pushed_fields self) as (Hst & Hdata & Hc & _ & Hdepth).
  pose proof (pushed_depth_in_range heap self Hok Hpush) as Hd.
  set (c := <[co_filename frame := r]> (should_trace_cache self)).
  exists (with_cache c (pushed self)), (stored r c (pushed self)).
  assert (Hlook : lookup_tracename (pushed self) frame =
            (Some r, with_cache c (pushed self), [Ask (co_filename frame) (Some r)])).
  { destruct (lookup_tracename_cases (pushed self) frame)
      as [(r' & Hhit & _)|[(_ & Hfail & _)|(r' & _ & Hans' & Hl)]];
      rewrite ?Hc, ?Hst in *; try congruence.
    assert (r' = r) by congruence. subst r'. exact Hl. }
  destruct (stored_fields r c (pushed self)) as (_ & _ & Hc' & _ & Hd' & _ & Ht').
  repeat split.
  - destruct (case_CALL_cases heap self frame Hok)
      as [(Hout & Hover & _)|[(Hout & Hheap & _)|(_ & Hcase)]].
    + destruct Hpush as [?|[_ ?]]; [congruence|lia].
    + destruct Hpush as [?|[? _]]; congruence.
    + exact Hcase.
  - exact Hlook.
  - apply store_tracename_ok. exact Hd.
  - destruct (Tracer_trace_CALL_cases heap self frame Hok)
      as [(Hout & Hover & _)|[(Hout & Hheap & _)|(_ & [(r' & Hhit & _)|[(_ & Hfail & _)|(r' & _ & Hans' & Ht)]])]].
    + destruct Hpush as [?|[_ ?]]; [congruence|lia].
    + destruct Hpush as [?|[? _]]; congruence.
    + congruence.
    + congruence.
    + assert (r' = r) by congruence. subst r'. exact Ht.
  - now rewrite Hd'.
  - rewrite Hc'. apply lookup_insert_eq.
  - rewrite Ht', Hd'. apply read_write_same. exact Hd.
  - intros s ->. reflexivity.
  - intros Hns. destruct r; try reflexivity. discriminate.
Qed.

(** ** The invariant is kept *)

Lemma with_data_ok d self : tracenames_ok self -> tracenames_ok (with_data d self).
Proof. auto. Qed.

Lemma case_LINE_data self frame :
  (exists d, case_LINE self frame = Break (with_data d self) []) \/
  case_LINE self frame = Exit Undefined.
Proof.
  assert (Hself : self = with_data (data self) self) by now destruct self.
  unfold case_LINE. destruct (0 <=? depth self).
  - destruct (read_slot (tracenames self) (depth self)) as [[| |t]|]; eauto.
    left. exists (data self). now rewrite <- Hself.
  - left. exists (data self). now rewrite <- Hself.
Qed.

Lemma popped_ok self :
  tracenames_ok self -> 0 <= depth self ->
  tracenames_ok (with_depth (depth self - 1) self).
Proof. unfold tracenames_ok. cbn. lia. Qed.

Lemma Tracer_trace_RETURN_inv heap self frame rc self' log :
  Tracer_trace heap self frame PyTrace_RETURN = Returned rc self' log ->
  rc = 0 /\ log = [Enter PyTrace_RETURN] /\
  ((depth self < 0 /\ self' = self) \/
   (0 <= depth self /\ self' = with_depth (depth self - 1) self /\
    exists v, read_slot (tracenames self) (depth self) = Some v /\ v <> Indeterminate)).
Proof.
  rewrite Tracer_trace_RETURN.
  destruct (case_RETURN_cases self) as [[Hd ->]|[(Hd & Hv & ->)|(_ & _ & ->)]];
    intros H; inversion H; subst; auto 10.
Qed.

Lemma Tracer_trace_EXCEPTION_inv heap self frame rc self' log :
  Tracer_trace heap self frame PyTrace_EXCEPTION = Returned rc self' log ->
  rc = 0 /\
  ((is_pyexpat frame = false /\ self' = self /\ log = [Enter PyTrace_EXCEPTION]) \/
   (is_pyexpat frame = true /\
    log = [Enter PyTrace_EXCEPTION; Enter PyTrace_RETURN] /\
    exists rc', Tracer_trace heap self frame PyTrace_RETURN =
                  Returned rc' self' [Enter PyTrace_RETURN])).
Proof.
  rewrite Tracer_trace_EXCEPTION. destruct (is_pyexpat frame).
  - destruct (Tracer_trace heap self frame PyTrace_RETURN) as [rc' s l|] eqn:Hr;
      [|discriminate].
    destruct (Tracer_trace_RETURN_inv _ _ _ _ _ _ Hr) as (-> & -> & _).
    intros H. inversion H. subst. split; [reflexivity|]. right. eauto.
  - intros H. inversion H. subst. auto.
Qed.

Create HintDb tracer.
#[local] Hint Resolve pushed_ok stored_ok popped_ok with_data_ok : tracer.

Lemma Tracer_trace_ok heap self frame what rc self' log :
  tracenames_ok self ->
  Tracer_trace heap self frame what = Returned rc self' log ->
  tracenames_ok self'.
Proof.
  intros Hok Ht.
  by_what what.
  - destruct (Tracer_trace_CALL_cases heap self frame Hok)
      as [(_ & _ & Hu)|[(_ & _ & _ & Hr)|(Hpush & [(r & _ & Hr)|[(_ & _ & Hr)|(r & _ & _ & Hr)]])]];
      rewrite Ht in *; try discriminate; inversion Hr; subst;
      eauto with tracer.
  - apply Tracer_trace_EXCEPTION_inv in Ht.
    destruct Ht as (_ & [(_ & -> & _)|(_ & _ & rc' & Hr)]); [assumption|].
    apply Tracer_trace_RETURN_inv in Hr.
    destruct Hr as (_ & _ & [(_ & ->)|(Hd & -> & _)]); auto with tracer.
  - rewrite Tracer_trace_LINE in Ht.
    destruct (case_LINE_data self frame) as [[d Hl]|Hl]; rewrite Hl in Ht;
      [|discriminate].
    inversion Ht. subst. auto with tracer.
  - apply Tracer_trace_RETURN_inv in Ht.
    destruct Ht as (_ & _ & [(_ & ->)|(Hd & -> & _)]); auto with tracer.
  - rewrite Tracer_trace_other in Ht by assumption. inversion Ht. now subst.
Qed.

(** C8.  The invariant is kept by every event the trace function handles:
    afterwards [depth] is still below [tracenames_alloc], which is still
    the number of entries of the array.  A Call that succeeds has written
    the decision for the new frame inside the array, at [depth + 1], and
    every level below it holds what it held before: nothing is cut off,
    however deep the stack gets.  And a Call is always handled, as long as
    the allocation count it may need fits an [int]. *)
Theorem depth_stays_within_capacity heap self frame what :
  tracenames_ok self ->
  (forall rc self' log,
     Tracer_trace heap self frame what = Returned rc self' log ->
     tracenames_ok self' /\
     (0 <= depth self' ->
      depth self' < tracenames_alloc self' /\
      depth self' < Z.of_nat (length (tracenames self'))) /\
     (what = PyTrace_CALL -> rc = 0 ->
      depth self' = depth self + 1 /\
      (exists r, read_slot (tracenames self') (depth self') = Some (slot_of r)) /\
      (forall i, 0 <= i <= depth self ->
         read_slot (tracenames self') i = read_slot (tracenames self) i))) /\
  (what = PyTrace_CALL ->
   depth self + 1 + TRACENAMES_DELTA <= INT_MAX ->
   exists rc self' log, Tracer_trace heap self frame what = Returned rc self' log).
Proof.
  intros Hok. split.
  - intros rc self' log Ht.
    pose proof (Tracer_trace_ok _ _ _ _ _ _ _ Hok Ht) as Hok'.
    split; [assumption|]. split.
    + intros _. destruct Hok' as (Hlen & Hd & _). lia.
    + intros -> ->.
      destruct (Tracer_trace_CALL_post _ _ _ Hok _ _ _ Ht)
        as [(Hrc & _)|[(Hrc & _)|(_ & Hpush & r & c & ->)]]; try discriminate.
      destruct (stored_fields r c (pushed self)) as (_ & _ & _ & _ & Hd' & _ & Ht').
      destruct (pushed_fields self) as (_ & _ & _ & _ & Hdepth).
      pose proof (pushed_depth_in_range heap self Hok Hpush) as Hin.
      rewrite Hd', Ht', Hdepth in *.
      split; [reflexivity|]. split.
      * exists r. now apply read_write_same.
      * intros i Hi. destruct Hok as (Hlen & Hd & _).
        rewrite read_write_other by lia.
        apply pushed_tracenames. lia.
  - intros -> Hroom.
    destruct (Tracer_trace_CALL_cases heap self frame Hok)
      as [(Hout & Hover & _)|[(_ & _ & _ & Hr)|(_ & [(r & _ & Hr)|[(_ & _ & Hr)|(r & _ & _ & Hr)]])]];
      eauto.
    unfold outgrown in Hout. apply Z.leb_le in Hout. lia.
Qed.

(** ** The pyexpat work-around *)

(** C5.  On an Exception event from a frame whose filename contains
    "pyexpat.c", the trace function, having done with the Exception (for
    which the switch does nothing), calls itself once with a RETURN for
    the same frame: the outcome is that of the RETURN on the same state,
    and the entries logged are the Exception's and then the RETURN's, no
    more.  The nesting stops there: with fuel for one call the function
    gives out, with fuel for two, or more, it finishes.  In particular a
    Call that takes the depth from -1 to 0 followed by such an Exception
    leaves the depth at -1. *)
Theorem pyexpat_exception_injects_one_return heap self frame :
  is_pyexpat frame = true ->
  Tracer_trace heap self frame PyTrace_EXCEPTION =
    match Tracer_trace heap self frame PyTrace_RETURN with
    | Returned _ s log => Returned 0 s (Enter PyTrace_EXCEPTION :: log)
    | Undefined => Undefined
    end /\
  (forall rc s log,
     Tracer_trace heap self frame PyTrace_EXCEPTION = Returned rc s log ->
     log = [Enter PyTrace_EXCEPTION; Enter PyTrace_RETURN]) /\
  Tracer_trace_fuel 1 heap self frame PyTrace_EXCEPTION = None /\
  (forall n, Tracer_trace_fuel (2 + n) heap self frame PyTrace_EXCEPTION =
             Some (Tracer_trace heap self frame PyTrace_EXCEPTION)) /\
  (forall heap0 frame0 self1 log1,
     tracenames_ok self ->
     depth self = -1 ->
     Tracer_trace heap0 self frame0 PyTrace_CALL = Returned 0 self1 log1 ->
     depth self1 = 0 /\
     exists self2,
       Tracer_trace heap self1 frame PyTrace_EXCEPTION =
         Returned 0 self2 [Enter PyTrace_EXCEPTION; Enter PyTrace_RETURN] /\
       depth self2 = -1).
Proof.
  intros Hpy. split; [|split; [|split; [|split]]].
  - rewrite Tracer_trace_EXCEPTION. now rewrite Hpy.
  - intros rc s log Ht. apply Tracer_trace_EXCEPTION_inv in Ht.
    destruct Ht as (_ & [(Hn & _)|(_ & -> & _)]); [congruence|reflexivity].
  - cbn. now rewrite Hpy.
  - intros n. apply Tracer_trace_fuel_enough.
  - intros heap0 frame0 self1 log1 Hok Hd Hcall.
    assert (Hpost : exists r c, can_push heap0 self /\ self1 = stored r c (pushed self)).
    { destruct (Tracer_trace_CALL_cases heap0 self frame0 Hok)
        as [(_ & _ & Hu)|[(_ & _ & _ & Hr)|(Hpush & [(r & _ & Hr)|[(_ & _ & Hr)|(r & _ & _ & Hr)]])]];
        rewrite Hcall in *; try discriminate; inversion Hr; subst; eauto. }
    destruct Hpost as (r & c & Hpush & ->).
    destruct (stored_fields r c (pushed self)) as (_ & _ & _ & _ & Hd' & _ & Ht').
    destruct (pushed_fields self) as (_ & _ & _ & _ & Hdepth).
    pose proof (pushed_depth_in_range heap0 self Hok Hpush) as Hin.
    assert (Hd1 : depth (stored r c (pushed self)) = 0) by lia.
    split; [assumption|].
    rewrite Tracer_trace_EXCEPTION, Hpy, Tracer_trace_RETURN.
    unfold case_RETURN. rewrite Hd1. cbn [Z.leb Z.compare].
    assert (Hr : read_slot (tracenames (stored r c (pushed self))) 0 =
                   Some (slot_of r)).
    { rewrite Ht'. replace 0 with (depth (pushed self)) by lia.
      now apply read_write_same. }
    rewrite Hr. eexists. split.
    + destruct (slot_of r) eqn:Hs; [now destruct r| |]; reflexivity.
    + destruct (slot_of r); reflexivity.
Qed.

(** ** What one call does to the cache and to [should_trace] *)

Lemma grow_tracenames_fields heap self self' :
  grow_tracenames heap self = Grown self' ->
  should_trace self' = should_trace self /\
  should_trace_cache self' = should_trace_cache self.
Proof.
  unfold grow_tracenames.
  destruct (int_add (tracenames_alloc self) TRACENAMES_DELTA); [|discriminate].
  destruct (PyMem_Realloc heap (tracenames self) z); [|discriminate].
  intros H. inversion H. auto.
Qed.

Lemma store_tracename_fields self r self' :
  store_tracename self r = Some self' ->
  should_trace self' = should_trace self /\
  should_trace_cache self' = should_trace_cache self.
Proof.
  unfold store_tracename.
  destruct (write_slot (tracenames self) (depth self) (slot_of r)); [|discriminate].
  intros H. inversion H. auto.
Qed.

Lemma Tracer_trace_CALL_memo heap self frame rc self' log :
  Tracer_trace heap self frame PyTrace_CALL = Returned rc self' log ->
  should_trace self' = should_trace self /\
  memo_step self frame PyTrace_CALL self' log.
Proof.
  rewrite Tracer_trace_CALL. unfold case_CALL, resolve_and_store.
  destruct (int_add (depth self) 1) as [d|]; [|discriminate].
  set (self1 := with_depth d self).
  assert (H1 : should_trace self1 = should_trace self /\
               should_trace_cache self1 = should_trace_cache self) by auto.
  destruct (if tracenames_alloc self1 <=? depth self1
            then grow_tracenames heap self1 else Grown self1) as [self2| |] eqn:Hg;
    [| |discriminate].
  - assert (H2 : should_trace self2 = should_trace self /\
                 should_trace_cache self2 = should_trace_cache self).
    { destruct (tracenames_alloc self1 <=? depth self1).
      - apply grow_tracenames_fields in Hg. destruct Hg, H1. split; congruence.
      - inversion Hg. subst. exact H1. }
    destruct H2 as [Hst Hc].
    destruct (lookup_tracename_cases self2 frame)
      as [(r & Hhit & ->)|[(Hmiss & Hfail & ->)|(r & Hmiss & Hans & ->)]];
      rewrite Hc, ?Hst in *.
    + destruct (store_tracename self2 r) as [self4|] eqn:Hs; [|discriminate].
      apply store_tracename_fields in Hs. destruct Hs as [Hst4 Hc4].
      intros H. inversion H. subst. split; [congruence|].
      apply memo_quiet; [congruence|auto].
    + intros H. inversion H. subst. split; [assumption|].
      now apply memo_failed.
    + destruct (store_tracename _ r) as [self4|] eqn:Hs; [|discriminate].
      apply store_tracename_fields in Hs. destruct Hs as [Hst4 Hc4].
      cbn in Hst4, Hc4.
      intros H. inversion H. subst. split; [congruence|].
      apply memo_answered with r; auto.
  - intros H. inversion H. subst. split; [reflexivity|].
    apply memo_quiet; auto.
Qed.

Lemma Tracer_trace_memo heap self frame what rc self' log :
  Tracer_trace heap self frame what = Returned rc self' log ->
  should_trace self' = should_trace self /\
  memo_step self frame what self' log.
Proof.
  intros Ht.
  by_what what.
  - eapply Tracer_trace_CALL_memo. exact Ht.
  - apply Tracer_trace_EXCEPTION_inv in Ht.
    destruct Ht as (_ & [(_ & -> & ->)|(_ & -> & rc' & Hr)]).
    + split; [reflexivity|]. apply memo_quiet; auto.
    + apply Tracer_trace_RETURN_inv in Hr.
      destruct Hr as (_ & _ & [(_ & ->)|(_ & -> & _)]);
        (split; [reflexivity|]; apply memo_quiet; auto).
  - rewrite Tracer_trace_LINE in Ht.
    destruct (case_LINE_data self frame) as [[d Hl]|Hl]; rewrite Hl in Ht;
      [|discriminate].
    inversion Ht. subst. split; [reflexivity|]. apply memo_quiet; auto.
  - apply Tracer_trace_RETURN_inv in Ht.
    destruct Ht as (_ & -> & [(_ & ->)|(_ & -> & _)]);
      (split; [reflexivity|]; apply memo_quiet; auto).
  - rewrite Tracer_trace_other in Ht by assumption. inversion Ht. subst.
    split; [reflexivity|]. apply memo_quiet; auto.
Qed.

Lemma memo_step_cache_grows self frame what self' log filename :
  memo_step self frame what self' log ->
  should_trace_cache self' !! filename = None ->
  should_trace_cache self !! filename = None.
Proof.
  intros [Hc _|_ _ _ Hc _|r _ Hmiss _ Hc _]; rewrite Hc; try easy.
  destruct (decide (co_filename frame = filename)) as [<-|Hne].
  - now rewrite lookup_insert_eq.
  - now rewrite lookup_insert_ne.
Qed.

Lemma invocations_app filename l1 l2 :
  invocations filename (l1 ++ l2) =
    (invocations filename l1 + invocations filename l2)%nat.
Proof. unfold invocations. now rewrite List.filter_app, length_app. Qed.

Lemma invocations_Ask filename f o :
  invocations filename [Enter PyTrace_CALL; Ask f o] =
    if String.eqb f filename then 1%nat else 0%nat.
Proof. unfold invocations. cbn. now destruct (String.eqb f filename). Qed.

(** ** Memoisation of [should_trace] over a run *)

Lemma run_cons_inv e evs self s rcs log :
  run (e :: evs) self = Some (s, rcs, log) ->
  exists rc self1 log1 rcs' log',
    Tracer_trace (ev_heap e) self (ev_frame e) (ev_what e) = Returned rc self1 log1 /\
    run evs self1 = Some (s, rcs', log') /\
    rcs = rc :: rcs' /\ log = log1 ++ log'.
Proof.
  cbn [run].
  destruct (Tracer_trace _ _ _ _) as [rc self1 log1|] eqn:Ht; [|discriminate].
  destruct (run evs self1) as [[[s' rcs'] log']|] eqn:Hr; [|discriminate].
  intros H. inversion H. subst.
  exists rc, self1, log1, rcs', log'. auto.
Qed.

Lemma never_fails_on_tail e evs self self1 log1 :
  should_trace self1 = should_trace self ->
  memo_step self (ev_frame e) (ev_what e) self1 log1 ->
  never_fails_on self (e :: evs) ->
  never_fails_on self1 evs.
Proof.
  intros Hst Hm Hnf e' Hin Hw Hmiss. rewrite Hst.
  apply Hnf; [now right|assumption|].
  eapply memo_step_cache_grows; eassumption.
Qed.

Lemma run_hit_silent evs : forall self s rcs log filename,
  run evs self = Some (s, rcs, log) ->
  should_trace_cache self !! filename <> None ->
  invocations filename log = 0%nat.
Proof.
  induction evs as [|e evs IH]; intros self s rcs log filename Hrun Hhit.
  - cbn in Hrun. inversion Hrun. reflexivity.
  - apply run_cons_inv in Hrun.
    destruct Hrun as (rc & self1 & log1 & rcs' & log' & Ht & Hrun & _ & ->).
    apply Tracer_trace_memo in Ht. destruct Ht as [_ Hm].
    rewrite invocations_app.
    assert (Hhit1 : should_trace_cache self1 !! filename <> None).
    { intros Hnone. apply Hhit. eapply memo_step_cache_grows; eassumption. }
    rewrite (IH _ _ _ _ _ Hrun Hhit1).
    destruct Hm as [_ [->| ->]|_ Hmiss _ _ ->|r _ Hmiss _ _ ->];
      try reflexivity; rewrite invocations_Ask;
      destruct (String.eqb_spec (co_filename (ev_frame e)) filename);
      solve [reflexivity | subst; contradiction].
Qed.

Lemma run_answered_silent evs : forall self s rcs log filename l1 r l2,
  run evs self = Some (s, rcs, log) ->
  log = l1 ++ Ask filename (Some r) :: l2 ->
  invocations filename l2 = 0%nat.
Proof.
  induction evs as [|e evs IH]; intros self s rcs log filename l1 r l2 Hrun Hlog.
  - cbn in Hrun. inversion Hrun. subst. now destruct l1.
  - apply run_cons_inv in Hrun.
    destruct Hrun as (rc & self1 & log1 & rcs' & log' & Ht & Hrun & _ & ->).
    apply Tracer_trace_memo in Ht. destruct Ht as [_ Hm].
    destruct Hm as [_ [->| ->]|_ _ _ _ ->|r0 _ _ _ Hc ->]; cbn [app] in Hlog.
    + destruct l1 as [|a l1]; [discriminate|].
      inversion Hlog. eauto.
    + destruct l1 as [|a [|b l1]]; try discriminate.
      inversion Hlog. eauto.
    + destruct l1 as [|a [|b l1]]; try discriminate.
      inversion Hlog. eauto.
    + destruct l1 as [|a [|b l1]]; try discriminate.
      * inversion Hlog. subst.
        eapply run_hit_silent; [eassumption|].
        rewrite Hc, lookup_insert_eq. discriminate.
      * inversion Hlog. eauto.
Qed.

Lemma run_no_failure_once evs : forall self s rcs log filename,
  run evs self = Some (s, rcs, log) ->
  never_fails_on self evs ->
  (invocations filename log <= 1)%nat.
Proof.
  induction evs as [|e evs IH]; intros self s rcs log filename Hrun Hnf.
  - cbn in Hrun. inversion Hrun. cbn. lia.
  - apply run_cons_inv in Hrun.
    destruct Hrun as (rc & self1 & log1 & rcs' & log' & Ht & Hrun & _ & ->).
    apply Tracer_trace_memo in Ht. destruct Ht as [Hst Hm].
    pose proof (never_fails_on_tail _ _ _ _ _ Hst Hm Hnf) as Hnf1.
    pose proof (IH _ _ _ _ filename Hrun Hnf1) as Hle.
    rewrite invocations_app.
    destruct Hm as [_ [->| ->]|Hw Hmiss Hfail _ ->|r _ _ _ Hc ->].
    + exact Hle.
    + exact Hle.
    + exfalso. exact (Hnf e (or_introl eq_refl) Hw Hmiss Hfail).
    + rewrite invocations_Ask.
      destruct (String.eqb_spec (co_filename (ev_frame e)) filename) as [<-|Hne].
      * rewrite (run_hit_silent _ _ _ _ _ _ Hrun); [lia|].
        rewrite Hc, lookup_insert_eq. discriminate.
      * exact Hle.
Qed.

(** C3, as the code has it.  Over any run of events: [should_trace] is not
    called for a filename that is in the cache; once it has returned an
    object for a filename it is not called for that filename again; so
    when it never raises it is called at most once per filename, however
    many Call events name it.  (A call that raises stores nothing, and the
    next Call for that filename asks again.) *)
Theorem should_trace_memoised evs self s rcs log filename :
  run evs self = Some (s, rcs, log) ->
  (should_trace_cache self !! filename <> None ->
   invocations filename log = 0%nat) /\
  (forall l1 r l2,
     log = l1 ++ Ask filename (Some r) :: l2 ->
     invocations filename l2 = 0%nat) /\
  (never_fails_on self evs -> (invocations filename log <= 1)%nat).
Proof.
  intros Hrun. split; [|split].
  - intros Hhit. eapply run_hit_silent; eassumption.
  - intros l1 r l2 Hlog. eapply run_answered_silent; eassumption.
  - intros Hnf. eapply run_no_failure_once; eassumption.
Qed.

(** ** Runs that stay defined *)

Lemma Tracer_trace_depth heap self frame what rc self' log :
  tracenames_ok self ->
  Tracer_trace heap self frame what = Returned rc self' log ->
  (what = PyTrace_CALL -> depth self' = depth self \/ depth self' = depth self + 1) /\
  (what = PyTrace_RETURN ->
   (depth self < 0 /\ depth self' = depth self) \/
   (0 <= depth self /\ depth self' = depth self - 1)) /\
  depth self' <= depth self + 1.
Proof.
  intros Hok Ht.
  assert (Hret : forall heap frame rc self' log,
            Tracer_trace heap self frame PyTrace_RETURN = Returned rc self' log ->
            (depth self < 0 /\ depth self' = depth self) \/
            (0 <= depth self /\ depth self' = depth self - 1)).
  { intros heap0 frame0 rc0 s0 log0 Hr. apply Tracer_trace_RETURN_inv in Hr.
    destruct Hr as (_ & _ & [(Hd & ->)|(Hd & -> & _)]); auto. }
  by_what what.
  - assert (Hd : depth self' = depth self \/ depth self' = depth self + 1).
    { destruct (pushed_fields self) as (_ & _ & _ & _ & Hdepth).
      destruct (Tracer_trace_CALL_post _ _ _ Hok _ _ _ Ht)
        as [(_ & ->)|[(_ & -> & _)|(_ & _ & r & c & ->)]]; auto. }
    repeat split; [auto|discriminate|lia].
  - repeat split; try discriminate.
    apply Tracer_trace_EXCEPTION_inv in Ht.
    destruct Ht as (_ & [(_ & -> & _)|(_ & _ & rc' & Hr)]); [lia|].
    apply Hret in Hr. lia.
  - repeat split; try discriminate.
    rewrite Tracer_trace_LINE in Ht.
    destruct (case_LINE_data self frame) as [[d Hl]|Hl]; rewrite Hl in Ht;
      [|discriminate].
    inversion Ht. subst. cbn. lia.
  - pose proof (Hret _ _ _ _ _ Ht). repeat split; [discriminate|auto|lia].
  - rewrite Tracer_trace_other in Ht by assumption. inversion Ht. subst.
    repeat split; try contradiction. lia.
Qed.

Lemma levels_written_below self d :
  levels_written self -> d <= depth self -> levels_written (with_depth d self).
Proof. intros Hw Hd i Hi. cbn in *. apply Hw. lia. Qed.

Lemma stored_written heap self r c :
  tracenames_ok self -> can_push heap self -> levels_written self ->
  levels_written (stored r c (pushed self)).
Proof.
  intros Hok Hpush Hw i Hi.
  destruct (stored_fields r c (pushed self)) as (_ & _ & _ & _ & Hd' & _ & Ht').
  destruct (pushed_fields self) as (_ & _ & _ & _ & Hdepth).
  pose proof (pushed_depth_in_range heap self Hok Hpush) as Hin.
  destruct Hok as (Hlen & Hd & _).
  rewrite Hd', Hdepth in Hi. rewrite Ht', Hdepth.
  destruct (Z.eq_dec i (depth self + 1)) as [->|Hne].
  - exists (slot_of r). split; [|apply slot_of_not_Indeterminate].
    rewrite <- Hdepth. apply read_write_same. exact Hin.
  - rewrite read_write_other by lia.
    rewrite pushed_tracenames by lia. apply Hw. lia.
Qed.

Lemma Tracer_trace_written heap self frame what rc self' log :
  tracenames_ok self ->
  levels_written self ->
  Tracer_trace heap self frame what = Returned rc self' log ->
  (what = PyTrace_CALL ->
   should_trace_cache self !! co_filename frame = None ->
   should_trace self (co_filename frame) frame <> None) ->
  levels_written self'.
Proof.
  intros Hok Hw Ht Hnf.
  by_what what.
  - destruct (Tracer_trace_CALL_post _ _ _ Hok _ _ _ Ht)
      as [(_ & ->)|[(_ & _ & _ & Hmiss & Hfail)|(_ & Hpush & r & c & ->)]].
    + assumption.
    + exfalso. now apply Hnf.
    + eapply stored_written; eassumption.
  - apply Tracer_trace_EXCEPTION_inv in Ht.
    destruct Ht as (_ & [(_ & -> & _)|(_ & _ & rc' & Hr)]); [assumption|].
    apply Tracer_trace_RETURN_inv in Hr.
    destruct Hr as (_ & _ & [(_ & ->)|(Hd & -> & _)]); [assumption|].
    apply levels_written_below; [assumption|lia].
  - rewrite Tracer_trace_LINE in Ht.
    destruct (case_LINE_data self frame) as [[d Hl]|Hl]; rewrite Hl in Ht;
      [|discriminate].
    inversion Ht. subst. exact Hw.
  - apply Tracer_trace_RETURN_inv in Ht.
    destruct Ht as (_ & _ & [(_ & ->)|(Hd & -> & _)]); [assumption|].
    apply levels_written_below; [assumption|lia].
  - rewrite Tracer_trace_other in Ht by assumption. inversion Ht. now subst.
Qed.

Lemma Tracer_trace_RETURN_defined heap self frame :
  levels_written self ->
  exists self', Tracer_trace heap self frame PyTrace_RETURN =
                  Returned 0 self' [Enter PyTrace_RETURN].
Proof.
  intros Hw. rewrite Tracer_trace_RETURN.
  destruct (case_RETURN_cases self) as [[_ ->]|[(_ & _ & ->)|(Hd & Hbad & _)]];
    eauto.
  destruct (Hw (depth self)) as (v & Hv & Hne); [lia|].
  destruct Hbad; congruence.
Qed.

(** From a state that satisfies the invariant and whose levels in use are
    all written, no event has undefined behaviour, as long as the new
    allocation count still fits an [int]. *)
Lemma Tracer_trace_defined heap self frame what :
  tracenames_ok self ->
  levels_written self ->
  depth self + 1 + TRACENAMES_DELTA <= INT_MAX ->
  exists rc self' log, Tracer_trace heap self frame what = Returned rc self' log.
Proof.
  intros Hok Hw Hroom.
  by_what what.
  - destruct (Tracer_trace_CALL_cases heap self frame Hok)
      as [(Hout & Hover & _)|[(_ & _ & _ & Hr)|(_ & [(r & _ & Hr)|[(_ & _ & Hr)|(r & _ & _ & Hr)]])]];
      eauto.
    unfold outgrown in Hout. apply Z.leb_le in Hout. lia.
  - rewrite Tracer_trace_EXCEPTION. destruct (is_pyexpat frame); eauto.
    destruct (Tracer_trace_RETURN_defined heap self frame Hw) as [s ->]. eauto.
  - rewrite Tracer_trace_LINE. unfold case_LINE.
    destruct (0 <=? depth self) eqn:Hd; eauto.
    apply Z.leb_le in Hd.
    destruct (Hw (depth self)) as (v & -> & Hne); [lia|].
    destruct v; eauto. contradiction.
  - destruct (Tracer_trace_RETURN_defined heap self frame Hw) as [s ->]. eauto.
  - rewrite Tracer_trace_other by assumption. eauto.
Qed.

Lemma run_defined evs : forall self,
  tracenames_ok self ->
  levels_written self ->
  depth self + 1 + Z.of_nat (length evs) + TRACENAMES_DELTA <= INT_MAX ->
  never_fails_on self evs ->
  exists s rcs log, run evs self = Some (s, rcs, log).
Proof.
  induction evs as [|e evs IH]; intros self Hok Hw Hroom Hnf.
  - cbn. eauto.
  - cbn [length] in Hroom.
    destruct (Tracer_trace_defined (ev_heap e) self (ev_frame e) (ev_what e) Hok Hw)
      as (rc & self1 & log1 & Ht); [lia|].
    pose proof (Tracer_trace_ok _ _ _ _ _ _ _ Hok Ht) as Hok1.
    destruct (Tracer_trace_depth _ _ _ _ _ _ _ Hok Ht) as (_ & _ & Hd1).
    destruct (Tracer_trace_memo _ _ _ _ _ _ _ Ht) as [Hst Hm].
    assert (Hw1 : levels_written self1).
    { apply (Tracer_trace_written _ _ _ _ _ _ _ Hok Hw Ht).
      intros Hwhat Hmiss. apply (Hnf e); [now left|assumption|assumption]. }
    destruct (IH self1 Hok1 Hw1) as (s & rcs & log & Hrun).
    + lia.
    + eapply never_fails_on_tail; eassumption.
    + cbn [run]. rewrite Ht, Hrun. eauto.
Qed.

(** ** Balance *)

Lemma nested_run_ends_empty evs : forall open self s rcs log,
  nested open evs = true ->
  tracenames_ok self ->
  depth self + 1 <= Z.of_nat open ->
  run evs self = Some (s, rcs, log) ->
  depth s = -1.
Proof.
  induction evs as [|e evs IH]; intros open self s rcs log Hn Hok Hd Hrun.
  - cbn in Hn, Hrun. apply Nat.eqb_eq in Hn. inversion Hrun. subst.
    destruct Hok as (_ & Hd0 & _). lia.
  - apply run_cons_inv in Hrun.
    destruct Hrun as (rc & self1 & log1 & rcs' & log' & Ht & Hrun & _ & _).
    pose proof (Tracer_trace_ok _ _ _ _ _ _ _ Hok Ht) as Hok1.
    destruct (Tracer_trace_depth _ _ _ _ _ _ _ Hok Ht) as (Hcall & Hret & _).
    cbn [nested] in Hn.
    destruct (ev_what e =? PyTrace_CALL) eqn:Hw.
    + apply Z.eqb_eq in Hw. apply (IH (S open) self1 s rcs' log'); auto.
      destruct (Hcall Hw); lia.
    + destruct (ev_what e =? PyTrace_RETURN) eqn:Hw'; [|discriminate].
      apply Z.eqb_eq in Hw'. destruct open as [|open']; [discriminate|].
      apply (IH open' self1 s rcs' log'); auto.
      destruct (Hret Hw') as [[? ?]|[? ?]]; lia.
Qed.

(** C1.  Take a properly nested sequence of Call and Return events and a
    Tracer with no frame tracked ([depth = -1]).  Whatever the events'
    Calls run into (a failed reallocation, a [should_trace] that raises),
    if the run is defined it ends with [depth = -1]: no level of
    [tracenames] is in use.  And the run is defined whenever
    [should_trace] does not raise and the sequence is short enough for the
    counters to stay in the [int] range. *)
Theorem balanced_run_empties_stack evs self :
  nested 0 evs = true ->
  tracenames_ok self ->
  depth self = -1 ->
  (forall s rcs log, run evs self = Some (s, rcs, log) -> depth s = -1) /\
  (Z.of_nat (length evs) + TRACENAMES_DELTA <= INT_MAX ->
   never_fails_on self evs ->
   exists s rcs log, run evs self = Some (s, rcs, log) /\ depth s = -1).
Proof.
  intros Hn Hok Hd.
  assert (Hend : forall s rcs log, run evs self = Some (s, rcs, log) -> depth s = -1).
  { intros s rcs log Hrun.
    apply (nested_run_ends_empty evs 0%nat self s rcs log); auto. lia. }
  split; [exact Hend|].
  intros Hlen Hnf.
  destruct (run_defined evs self Hok) as (s & rcs & log & Hrun).
  - intros i Hi. lia.
  - lia.
  - exact Hnf.
  - exists s, rcs, log. split; [exact Hrun|]. eapply Hend. exact Hrun.
Qed.

(** * The properties at work on the example configuration *)

Lemma example_tracer_init :
  option_map Tracer_start (Tracer_init true example_should_trace ∅ ∅) =
    Some example_tracer.
Proof. reflexivity. Qed.

Lemma example_tracer_ok : tracenames_ok example_tracer.
Proof. repeat split; vm_compute; congruence. Qed.

Lemma full_tracer_ok : tracenames_ok full_tracer.
Proof. repeat split; vm_compute; congruence. Qed.

Lemma stale_tracer_ok : tracenames_ok stale_tracer.
Proof. repeat split; vm_compute; congruence. Qed.

Lemma stale_tracer_reached :
  run [event "a.py" 1 PyTrace_CALL; event "a.py" 2 PyTrace_RETURN] example_tracer =
    Some (stale_tracer, [0; 0],
          [Enter PyTrace_CALL; Ask "a.py" (Some (PyString "a.py"));
           Enter PyTrace_RETURN]).
Proof. vm_compute. reflexivity. Qed.

Lemma tracing_tracer_reached :
  run [event "a.py" 9 PyTrace_CALL] example_tracer =
    Some (tracing_tracer, [0],
          [Enter PyTrace_CALL; Ask "a.py" (Some (PyString "a.py"))]).
Proof. vm_compute. reflexivity. Qed.

Lemma skipping_tracer_reached :
  run [event "a.py" 9 PyTrace_CALL; event "b.py" 4 PyTrace_CALL] example_tracer =
    Some (skipping_tracer, [0; 0],
          [Enter PyTrace_CALL; Ask "a.py" (Some (PyString "a.py"));
           Enter PyTrace_CALL; Ask "b.py" (Some (PyBool false))]).
Proof. vm_compute. reflexivity. Qed.

(** The example of the specification: two hits, depth back at -1,
    [should_trace] asked once for each of the two files. *)
Lemma scenario_result :
  exists s,
    run scenario example_tracer =
      Some (s, [0; 0; 0; 0; 0; 0; 0],
            [Enter PyTrace_CALL; Ask "a.py" (Some (PyString "a.py"));
             Enter PyTrace_LINE;
             Enter PyTrace_CALL; Ask "b.py" (Some (PyBool false));
             Enter PyTrace_LINE; Enter PyTrace_RETURN;
             Enter PyTrace_LINE; Enter PyTrace_RETURN]) /\
    depth s = -1 /\
    data s = <[("a.py", 11) := PyNone]> (<[("a.py", 10) := PyNone]> ∅).
Proof. eexists. split; [vm_compute; reflexivity|]. split; reflexivity. Qed.

(** The witness of C9. *)
Lemma return_on_empty_stack_witness :
  depth example_tracer < 0 /\
  Tracer_trace true example_tracer (mkFrame "a.py" 3 0) PyTrace_RETURN =
    Returned 0 example_tracer [Enter PyTrace_RETURN].
Proof.
  split; [reflexivity|].
  apply return_on_empty_stack_is_noop. reflexivity.
Defined.

(** The witness of C2: a line of "a.py" is recorded, a line of "b.py",
    which is not traced, is not. *)
Lemma line_event_witness :
  (0 <= depth tracing_tracer /\
   read_slot (tracenames tracing_tracer) (depth tracing_tracer) = Some (Name "a.py") /\
   exists self',
     Tracer_trace true tracing_tracer (mkFrame "a.py" 10 0) PyTrace_LINE =
       Returned 0 self' [Enter PyTrace_LINE] /\
     data self' !! ("a.py", 10) = Some PyNone) /\
  (0 <= depth skipping_tracer /\
   read_slot (tracenames skipping_tracer) (depth skipping_tracer) = Some NULL /\
   Tracer_trace true skipping_tracer (mkFrame "b.py" 5 0) PyTrace_LINE =
     Returned 0 skipping_tracer [Enter PyTrace_LINE]).
Proof.
  split.
  - assert (Hd : 0 <= depth tracing_tracer) by (vm_compute; congruence).
    assert (Hs : read_slot (tracenames tracing_tracer) (depth tracing_tracer) =
                 Some (Name "a.py")) by reflexivity.
    split; [exact Hd|]. split; [exact Hs|].
    destruct (proj1 (line_event_records_hit true tracing_tracer (mkFrame "a.py" 10 0))
                "a.py" Hd Hs) as (self' & Ht & Hdata & _).
    exists self'. split; assumption.
  - assert (Hd : 0 <= depth skipping_tracer) by (vm_compute; congruence).
    assert (Hs : read_slot (tracenames skipping_tracer) (depth skipping_tracer) =
                 Some NULL) by reflexivity.
    split; [exact Hd|]. split; [exact Hs|].
    exact (proj1 (proj2 (line_event_records_hit true skipping_tracer
                           (mkFrame "b.py" 5 0))) Hd Hs).
Defined.

(** The witness of C7: the third nested call finds the two-entry array
    full and the heap exhausted. *)
Lemma realloc_failure_witness :
  tracenames_ok full_tracer /\
  outgrown full_tracer = true /\
  tracenames_alloc full_tracer + TRACENAMES_DELTA <= INT_MAX /\
  Tracer_trace false full_tracer (mkFrame "a.py" 1 0) PyTrace_CALL =
    Returned (-1) full_tracer [Enter PyTrace_CALL].
Proof.
  assert (Hroom : tracenames_alloc full_tracer + TRACENAMES_DELTA <= INT_MAX)
    by (vm_compute; congruence).
  split; [exact full_tracer_ok|]. split; [reflexivity|]. split; [exact Hroom|].
  apply realloc_failure_restores_tracer;
    [exact full_tracer_ok|reflexivity|exact Hroom].
Defined.

(** The witness of C6: [should_trace] raises on "c.py". *)
Lemma should_trace_failure_witness :
  tracenames_ok example_tracer /\
  can_push true example_tracer /\
  should_trace_cache example_tracer !! "c.py" = None /\
  should_trace example_tracer "c.py" (mkFrame "c.py" 1 0) = None /\
  exists self',
    Tracer_trace true example_tracer (mkFrame "c.py" 1 0) PyTrace_CALL =
      Returned (-1) self' [Enter PyTrace_CALL; Ask "c.py" None] /\
    should_trace_cache self' !! "c.py" = None /\
    depth self' = 0.
Proof.
  assert (Hpush : can_push true example_tracer) by (left; reflexivity).
  assert (Hmiss : should_trace_cache example_tracer !!
                    co_filename (mkFrame "c.py" 1 0) = None) by reflexivity.
  assert (Hfail : should_trace example_tracer (co_filename (mkFrame "c.py" 1 0))
                    (mkFrame "c.py" 1 0) = None) by reflexivity.
  split; [exact example_tracer_ok|]. split; [exact Hpush|].
  split; [exact Hmiss|]. split; [exact Hfail|].
  destruct (should_trace_failure_propagates true example_tracer (mkFrame "c.py" 1 0)
              example_tracer_ok Hpush Hmiss Hfail)
    as (self' & Ht & _ & Hc & _ & Hd & _).
  exists self'. split; [exact Ht|]. split; [exact Hc|exact Hd].
Defined.

(** The witness of C10: after a call of "a.py" has come and gone, a Call
    for "c.py" on which [should_trace] raises leaves level 0 holding
    "a.py", and the next Line event is recorded under "a.py". *)
Lemma stale_slot_witness :
  tracenames_ok stale_tracer /\
  can_push true stale_tracer /\
  should_trace_cache stale_tracer !! "c.py" = None /\
  should_trace stale_tracer "c.py" (mkFrame "c.py" 1 0) = None /\
  exists self' self'',
    Tracer_trace true stale_tracer (mkFrame "c.py" 1 0) PyTrace_CALL =
      Returned (-1) self' [Enter PyTrace_CALL; Ask "c.py" None] /\
    tracenames self' = tracenames stale_tracer /\
    Tracer_trace true self' (mkFrame "c.py" 7 0) PyTrace_LINE =
      Returned 0 self'' [Enter PyTrace_LINE] /\
    data self'' !! ("a.py", 7) = Some PyNone.
Proof.
  assert (Hpush : can_push true stale_tracer) by (left; reflexivity).
  assert (Hmiss : should_trace_cache stale_tracer !!
                    co_filename (mkFrame "c.py" 1 0) = None) by reflexivity.
  assert (Hfail : should_trace stale_tracer (co_filename (mkFrame "c.py" 1 0))
                    (mkFrame "c.py" 1 0) = None) by reflexivity.
  split; [exact stale_tracer_ok|]. split; [exact Hpush|].
  split; [exact Hmiss|]. split; [exact Hfail|].
  destruct (failed_call_keeps_stale_slot true stale_tracer (mkFrame "c.py" 1 0)
              stale_tracer_ok Hpush Hmiss Hfail)
    as (self' & Ht & _ & Hkeep & _ & Hline).
  destruct (Hline true (mkFrame "c.py" 7 0) "a.py" eq_refl) as (self'' & Hl & Hdata).
  exists self', self''. split; [exact Ht|]. split; [exact (Hkeep eq_refl)|].
  split; [exact Hl|exact Hdata].
Defined.

(** The witness of C8: the third nested call outgrows the two-entry array,
    which is reallocated to 102 entries before level 2 is written. *)
Lemma depth_within_capacity_witness :
  tracenames_ok full_tracer /\
  Tracer_trace true full_tracer (mkFrame "a.py" 1 0) PyTrace_CALL =
    Returned 0 grown_tracer [Enter PyTrace_CALL] /\
  tracenames_ok grown_tracer /\
  depth grown_tracer = 2 /\
  tracenames_alloc grown_tracer = 102 /\
  (exists r, read_slot (tracenames grown_tracer) (depth grown_tracer) =
             Some (slot_of r)) /\
  read_slot (tracenames grown_tracer) 1 = read_slot (tracenames full_tracer) 1.
Proof.
  assert (Ht : Tracer_trace true full_tracer (mkFrame "a.py" 1 0) PyTrace_CALL =
               Returned 0 grown_tracer [Enter PyTrace_CALL])
    by (vm_compute; reflexivity).
  destruct (proj1 (depth_stays_within_capacity true full_tracer (mkFrame "a.py" 1 0)
                     PyTrace_CALL full_tracer_ok)
              0 grown_tracer [Enter PyTrace_CALL] Ht)
    as (Hok & _ & Hcall).
  destruct (Hcall eq_refl eq_refl) as (Hd & Hr & Hbelow).
  split; [exact full_tracer_ok|]. split; [exact Ht|]. split; [exact Hok|].
  split; [exact Hd|]. split; [reflexivity|]. split; [exact Hr|].
  apply Hbelow. vm_compute. split; congruence.
Defined.

(** The witness of C4: "a.py" is answered with a string and traced. *)
Lemma stored_decision_witness :
  tracenames_ok example_tracer /\
  can_push true example_tracer /\
  should_trace_cache example_tracer !! "a.py" = None /\
  should_trace example_tracer "a.py" (mkFrame "a.py" 9 0) = Some (PyString "a.py") /\
  exists self',
    Tracer_trace true example_tracer (mkFrame "a.py" 9 0) PyTrace_CALL =
      Returned 0 self' [Enter PyTrace_CALL; Ask "a.py" (Some (PyString "a.py"))] /\
    should_trace_cache self' !! "a.py" = Some (PyString "a.py") /\
    read_slot (tracenames self') (depth self') = Some (Name "a.py").
Proof.
  assert (Hpush : can_push true example_tracer) by (left; reflexivity).
  assert (Hmiss : should_trace_cache example_tracer !!
                    co_filename (mkFrame "a.py" 9 0) = None) by reflexivity.
  assert (Hans : should_trace example_tracer (co_filename (mkFrame "a.py" 9 0))
                   (mkFrame "a.py" 9 0) = Some (PyString "a.py")) by reflexivity.
  split; [exact example_tracer_ok|]. split; [exact Hpush|].
  split; [exact Hmiss|]. split; [exact Hans|].
  destruct (stored_decision_is_string_check true example_tracer (mkFrame "a.py" 9 0)
              (PyString "a.py") example_tracer_ok Hpush Hmiss Hans)
    as (self3 & self' & _ & _ & _ & _ & _ & Ht & _ & Hc & Hslot & _).
  exists self'. split; [exact Ht|]. split; [exact Hc|exact Hslot].
Defined.

(** The counterexample to C4 as the specification words it.  The empty
    string is a falsy result, and it is stored as a tracename, not as
    "skip"; [True] is neither null nor falsy, and it is stored as "skip". *)
Lemma falsy_string_traced_and_true_skipped :
  (should_trace example_tracer "empty.py" (mkFrame "empty.py" 1 0) = Some (PyString "") /\
   PyObject_IsTrue (PyString "") = false /\
   exists self',
     Tracer_trace true example_tracer (mkFrame "empty.py" 1 0) PyTrace_CALL =
       Returned 0 self' [Enter PyTrace_CALL; Ask "empty.py" (Some (PyString ""))] /\
     read_slot (tracenames self') (depth self') = Some (Name "") /\
     read_slot (tracenames self') (depth self') <> Some NULL) /\
  (should_trace example_tracer "flag.py" (mkFrame "flag.py" 1 0) = Some (PyBool true) /\
   PyObject_IsTrue (PyBool true) = true /\
   exists self',
     Tracer_trace true example_tracer (mkFrame "flag.py" 1 0) PyTrace_CALL =
       Returned 0 self' [Enter PyTrace_CALL; Ask "flag.py" (Some (PyBool true))] /\
     read_slot (tracenames self') (depth self') = Some NULL).
Proof.
  split.
  - split; [reflexivity|]. split; [reflexivity|].
    eexists. split; [vm_compute; reflexivity|].
    split; [reflexivity|discriminate].
  - split; [reflexivity|]. split; [reflexivity|].
    eexists. split; [vm_compute; reflexivity|]. reflexivity.
Qed.

(** The witness of C5: a Call for "pyexpat.c" with no frame tracked, then
    the Exception that pyexpat sends in place of a Return. *)
Lemma pyexpat_witness :
  is_pyexpat (mkFrame "pyexpat.c" 1 0) = true /\
  Tracer_trace_fuel 1 true example_tracer (mkFrame "pyexpat.c" 1 0)
    PyTrace_EXCEPTION = None /\
  exists self1 log1 self2,
    Tracer_trace true example_tracer (mkFrame "pyexpat.c" 1 0) PyTrace_CALL =
      Returned 0 self1 log1 /\
    depth self1 = 0 /\
    Tracer_trace true self1 (mkFrame "pyexpat.c" 1 0) PyTrace_EXCEPTION =
      Returned 0 self2 [Enter PyTrace_EXCEPTION; Enter PyTrace_RETURN] /\
    depth self2 = -1.
Proof.
  assert (Hpy : is_pyexpat (mkFrame "pyexpat.c" 1 0) = true) by reflexivity.
  destruct (pyexpat_exception_injects_one_return true example_tracer
              (mkFrame "pyexpat.c" 1 0) Hpy) as (_ & _ & Hfuel & _ & _).
  split; [exact Hpy|]. split; [exact Hfuel|].
  assert (Hcall : exists self1 log1,
            Tracer_trace true example_tracer (mkFrame "pyexpat.c" 1 0) PyTrace_CALL =
              Returned 0 self1 log1)
    by (eexists; eexists; vm_compute; reflexivity).
  destruct Hcall as (self1 & log1 & Hcall).
  destruct (pyexpat_exception_injects_one_return true example_tracer
              (mkFrame "pyexpat.c" 1 0) Hpy) as (_ & _ & _ & _ & Hin).
  destruct (Hin true (mkFrame "pyexpat.c" 1 0) self1 log1 example_tracer_ok
              eq_refl Hcall) as (Hd1 & self2 & Hexc & Hd2).
  exists self1, log1, self2. auto.
Defined.

(** The witness of C1: a call of "a.py" that calls "b.py". *)
Lemma balanced_run_witness :
  nested 0 nested_calls = true /\
  tracenames_ok example_tracer /\
  depth example_tracer = -1 /\
  Z.of_nat (length nested_calls) + TRACENAMES_DELTA <= INT_MAX /\
  never_fails_on example_tracer nested_calls /\
  exists s rcs log,
    run nested_calls example_tracer = Some (s, rcs, log) /\ depth s = -1.
Proof.
  assert (Hlen : Z.of_nat (length nested_calls) + TRACENAMES_DELTA <= INT_MAX)
    by (vm_compute; congruence).
  assert (Hnf : never_fails_on example_tracer nested_calls).
  { intros e [<-|[<-|[<-|[<-|[]]]]] _ _; vm_compute; congruence. }
  split; [reflexivity|]. split; [exact example_tracer_ok|].
  split; [reflexivity|]. split; [exact Hlen|]. split; [exact Hnf|].
  exact (proj2 (balanced_run_empties_stack nested_calls example_tracer eq_refl
                  example_tracer_ok eq_refl) Hlen Hnf).
Defined.

(** The witness of C3: the scenario of the specification, where "a.py" is
    called once and stays in the cache. *)
Lemma should_trace_memoised_witness :
  exists s rcs log,
    run scenario example_tracer = Some (s, rcs, log) /\
    never_fails_on example_tracer scenario /\
    (invocations "a.py" log <= 1)%nat /\
    (invocations "b.py" log <= 1)%nat.
Proof.
  assert (Hnf : never_fails_on example_tracer scenario).
  { intros e [<-|[<-|[<-|[<-|[<-|[<-|[<-|[]]]]]]]] _ _; vm_compute; congruence. }
  destruct scenario_result as (s & Hrun & _).
  eexists s, _, _. split; [exact Hrun|]. split; [exact Hnf|].
  split.
  - exact (proj2 (proj2 (should_trace_memoised scenario example_tracer s _ _ "a.py"
                           Hrun)) Hnf).
  - exact (proj2 (proj2 (should_trace_memoised scenario example_tracer s _ _ "b.py"
                           Hrun)) Hnf).
Defined.

(** The counterexample to C3 as the specification words it: [should_trace]
    raises on "c.py", nothing is cached, and a second Call for "c.py" asks
    again: two invocations for one filename. *)
Lemma should_trace_asked_twice :
  exists s,
    run [event "c.py" 1 PyTrace_CALL; event "c.py" 1 PyTrace_CALL] example_tracer =
      Some (s, [-1; -1],
            [Enter PyTrace_CALL; Ask "c.py" None;
             Enter PyTrace_CALL; Ask "c.py" None]) /\
    invocations "c.py"
      [Enter PyTrace_CALL; Ask "c.py" None; Enter PyTrace_CALL; Ask "c.py" None] = 2%nat.
Proof. eexists. split; [vm_compute; reflexivity|reflexivity]. Qed.

(** * Further properties of the trace function *)

(** ** What an event may change *)

Lemma grow_tracenames_keeps heap self self' :
  grow_tracenames heap self = Grown self' ->
  should_trace self' = should_trace self /\
  data self' = data self /\
  should_trace_cache self' = should_trace_cache self /\
  started self' = started self /\
  depth self' = depth self.
Proof.
  unfold grow_tracenames.
  destruct (int_add (tracenames_alloc self) TRACENAMES_DELTA); [|discriminate].
  destruct (PyMem_Realloc heap (tracenames self) z); [|discriminate].
  intros H. inversion H. cbn. auto.
Qed.

Lemma store_tracename_keeps self r self' :
  store_tracename self r = Some self' ->
  should_trace self' = should_trace self /\
  data self' = data self /\
  should_trace_cache self' = should_trace_cache self /\
  started self' = started self /\
  depth self' = depth self.
Proof.
  unfold store_tracename.
  destruct (write_slot (tracenames self) (depth self) (slot_of r)); [|discriminate].
  intros H. inversion H. cbn. auto.
Qed.

Lemma lookup_tracename_keeps self frame o self' log :
  lookup_tracename self frame = (o, self', log) ->
  should_trace self' = should_trace self /\
  data self' = data self /\
  started self' = started self /\
  depth self' = depth self /\
  tracenames self' = tracenames self /\
  tracenames_alloc self' = tracenames_alloc self.
Proof.
  destruct (lookup_tracename_cases self frame)
    as [(r & _ & ->)|[(_ & _ & ->)|(r & _ & _ & ->)]];
    intros H; inversion H; subst; cbn; auto 10.
Qed.

Lemma Tracer_trace_CALL_keeps heap self frame rc self' log :
  Tracer_trace heap self frame PyTrace_CALL = Returned rc self' log ->
  should_trace self' = should_trace self /\
  data self' = data self /\
  started self' = started self.
Proof.
  rewrite Tracer_trace_CALL. unfold case_CALL, resolve_and_store.
  destruct (int_add (depth self) 1) as [d|]; [|discriminate].
  set (self1 := with_depth d self).
  destruct (if tracenames_alloc self1 <=? depth self1
            then grow_tracenames heap self1 else Grown self1) as [self2| |] eqn:Hg;
    [| |discriminate].
  - assert (H2 : should_trace self2 = should_trace self /\
                 data self2 = data self /\ started self2 = started self).
    { destruct (tracenames_alloc self1 <=? depth self1).
      - apply grow_tracenames_keeps in Hg.
        destruct Hg as (-> & -> & _ & -> & _). auto.
      - inversion Hg. subst. auto. }
    destruct H2 as (Hst & Hdata & Hstarted).
    destruct (lookup_tracename self2 frame) as [[o self3] l3] eqn:Hl.
    apply lookup_tracename_keeps in Hl.
    destruct Hl as (Hst3 & Hdata3 & Hstarted3 & _).
    destruct o as [r|].
    + destruct (store_tracename self3 r) as [self4|] eqn:Hs; [|discriminate].
      apply store_tracename_keeps in Hs.
      destruct Hs as (Hst4 & Hdata4 & _ & Hstarted4 & _).
      intros H. inversion H. subst. repeat split; congruence.
    + intros H. inversion H. subst. repeat split; congruence.
  - intros H. inversion H. subst. auto.
Qed.

(** X1.  What a call of the trace function can change, by kind of event.
    It never changes [should_trace] or [started].  A Call leaves [data]
    alone.  A Line changes [data] at most.  A Return, and an Exception
    from pyexpat, change [depth] at most: the slot that is popped keeps
    its content.  Any other event (an Exception from another file, the
    kinds the switch does not list) returns 0 and changes nothing. *)
Theorem Tracer_trace_footprint heap self frame what rc self' log :
  Tracer_trace heap self frame what = Returned rc self' log ->
  should_trace self' = should_trace self /\
  started self' = started self /\
  (what = PyTrace_CALL -> data self' = data self) /\
  (what = PyTrace_LINE -> self' = with_data (data self') self) /\
  (what = PyTrace_RETURN \/ (what = PyTrace_EXCEPTION /\ is_pyexpat frame = true) ->
   self' = with_depth (depth self') self) /\
  (what <> PyTrace_CALL -> what <> PyTrace_LINE -> what <> PyTrace_RETURN ->
   (what = PyTrace_EXCEPTION -> is_pyexpat frame = false) ->
   rc = 0 /\ self' = self).
Proof.
  intros Ht.
  assert (Hsame : self = with_depth (depth self) self) by now destruct self.
  assert (Hret : forall heap frame rc self' log,
            Tracer_trace heap self frame PyTrace_RETURN = Returned rc self' log ->
            should_trace self' = should_trace self /\
            started self' = started self /\
            self' = with_depth (depth self') self).
  { intros heap0 frame0 rc0 s0 log0 Hr. apply Tracer_trace_RETURN_inv in Hr.
    destruct Hr as (_ & _ & [(_ & ->)|(_ & -> & _)]); auto. }
  by_what what.
  - destruct (Tracer_trace_CALL_keeps _ _ _ _ _ _ Ht) as (Hst & Hdata & Hstarted).
    split; [exact Hst|]. split; [exact Hstarted|]. split; [intros _; exact Hdata|].
    split; [intros H; discriminate H|].
    split; [intros [H|[H _]]; discriminate H|].
    intros H; contradiction.
  - apply Tracer_trace_EXCEPTION_inv in Ht.
    destruct Ht as (-> & [(Hpy & -> & _)|(Hpy & _ & rc' & Hr)]).
    + split; [reflexivity|]. split; [reflexivity|].
      split; [intros H; discriminate H|]. split; [intros H; discriminate H|].
      split; [intros [H|[_ H]]; [discriminate H|congruence]|].
      auto.
    + destruct (Hret _ _ _ _ _ Hr) as (Hst & Hstarted & Hself).
      split; [exact Hst|]. split; [exact Hstarted|].
      split; [intros H; discriminate H|]. split; [intros H; discriminate H|].
      split; [intros _; exact Hself|].
      intros _ _ _ Hno. specialize (Hno eq_refl). congruence.
  - rewrite Tracer_trace_LINE in Ht.
    destruct (case_LINE_data self frame) as [[d Hl]|Hl]; rewrite Hl in Ht;
      [|discriminate].
    inversion Ht. subst.
    split; [reflexivity|]. split; [reflexivity|].
    split; [intros H; discriminate H|]. split; [intros _; reflexivity|].
    split; [intros [H|[H _]]; discriminate H|].
    intros _ H; contradiction.
  - destruct (Hret _ _ _ _ _ Ht) as (Hst & Hstarted & Hself).
    split; [exact Hst|]. split; [exact Hstarted|].
    split; [intros H; discriminate H|]. split; [intros H; discriminate H|].
    split; [intros _; exact Hself|].
    intros _ _ H; contradiction.
  - rewrite Tracer_trace_other in Ht by assumption. inversion Ht. subst.
    split; [reflexivity|]. split; [reflexivity|].
    split; [intros; contradiction|]. split; [intros; contradiction|].
    split; [intros [?|[? _]]; contradiction|].
    auto.
Qed.

(** ** Error returns *)

(** X2.  The trace function returns 0 or -1, and -1 only from a Call:
    either the array had to grow and [PyMem_Realloc] failed, or the
    filename was not in the cache and [should_trace] raised.  Line, Return
    and Exception events never report an error. *)
Theorem only_calls_fail heap self frame what rc self' log :
  tracenames_ok self ->
  Tracer_trace heap self frame what = Returned rc self' log ->
  (rc = 0 \/ rc = -1) /\
  (rc = -1 <->
   what = PyTrace_CALL /\
   ((outgrown self = true /\ heap = false) \/
    (can_push heap self /\
     should_trace_cache self !! co_filename frame = None /\
     should_trace self (co_filename frame) frame = None))).
Proof.
  intros Hok Ht.
  assert (Hzero : what <> PyTrace_CALL -> rc = 0).
  { intros Hw. by_what what.
    - contradiction.
    - now apply Tracer_trace_EXCEPTION_inv in Ht.
    - rewrite Tracer_trace_LINE in Ht.
      destruct (case_LINE_data self frame) as [[d Hl]|Hl]; rewrite Hl in Ht;
        [|discriminate].
      now inversion Ht.
    - now apply Tracer_trace_RETURN_inv in Ht.
    - rewrite Tracer_trace_other in Ht by assumption. now inversion Ht. }
  destruct (Z.eq_dec what PyTrace_CALL) as [->|Hw].
  - destruct (Tracer_trace_CALL_cases heap self frame Hok)
      as [(_ & _ & Hr)|[(Hout & Hheap & _ & Hr)|(Hpush & [(r & Hhit & Hr)|[(Hmiss & Hfail & Hr)|(r & Hmiss & Hans & Hr)]])]];
      rewrite Ht in Hr; try discriminate; inversion Hr; subst.
    + split; [auto|]. split; [auto|reflexivity].
    + split; [auto|]. split; [discriminate|].
      intros (_ & [(Hout & Hheap)|(_ & Hmiss & _)]); [|congruence].
      destruct Hpush as [?|[? _]]; congruence.
    + split; [auto|]. split; [auto 10|reflexivity].
    + split; [auto|]. split; [discriminate|].
      intros (_ & [(Hout & Hheap)|(_ & _ & Hfail)]); [|congruence].
      destruct Hpush as [?|[? _]]; congruence.
  - rewrite (Hzero Hw). split; [auto|]. split; [discriminate|].
    intros [? _]. contradiction.
Qed.

(** ** When the allocator is consulted *)

(** X3.  [PyMem_Realloc] matters to a Call only when the new level does
    not fit ([tracenames_alloc <= depth + 1]), and to no other event: in
    every other case the outcome is the same whether or not the heap could
    serve a request. *)
Theorem realloc_only_when_outgrown heap heap' self frame what :
  what <> PyTrace_CALL \/ outgrown self = false ->
  Tracer_trace heap self frame what = Tracer_trace heap' self frame what.
Proof.
  assert (Hcall : outgrown self = false ->
            case_CALL heap self frame = case_CALL heap' self frame).
  { intros Hout. unfold case_CALL, outgrown in *. unfold int_add.
    destruct ((INT_MIN <=? depth self + 1) && (depth self + 1 <=? INT_MAX));
      [|reflexivity].
    cbn [tracenames_alloc depth with_depth]. now rewrite Hout. }
  intros Hwhy. by_what what.
  - destruct Hwhy as [?|Hout]; [contradiction|].
    rewrite !Tracer_trace_CALL. now rewrite (Hcall Hout).
  - now rewrite !Tracer_trace_EXCEPTION, !Tracer_trace_RETURN.
  - now rewrite !Tracer_trace_LINE.
  - now rewrite !Tracer_trace_RETURN.
  - now rewrite !Tracer_trace_other by assumption.
Qed.

(** ** How the array grows *)

Lemma outgrown_exactly self :
  tracenames_ok self ->
  outgrown self = true <-> depth self + 1 = tracenames_alloc self.
Proof.
  intros (_ & Hd & _). unfold outgrown. rewrite Z.leb_le. lia.
Qed.

Lemma not_CALL_keeps_array heap self frame what rc self' log :
  Tracer_trace heap self frame what = Returned rc self' log ->
  what <> PyTrace_CALL ->
  tracenames_alloc self' = tracenames_alloc self /\
  tracenames self' = tracenames self /\
  should_trace_cache self' = should_trace_cache self.
Proof.
  intros Ht Hw. by_what what.
  - contradiction.
  - apply Tracer_trace_EXCEPTION_inv in Ht.
    destruct Ht as (_ & [(_ & -> & _)|(_ & _ & rc' & Hr)]); [auto|].
    apply Tracer_trace_RETURN_inv in Hr.
    now destruct Hr as (_ & _ & [(_ & ->)|(_ & -> & _)]).
  - rewrite Tracer_trace_LINE in Ht.
    destruct (case_LINE_data self frame) as [[d Hl]|Hl]; rewrite Hl in Ht;
      [|discriminate].
    now inversion Ht.
  - apply Tracer_trace_RETURN_inv in Ht.
    now destruct Ht as (_ & _ & [(_ & ->)|(_ & -> & _)]).
  - rewrite Tracer_trace_other in Ht by assumption. now inversion Ht.
Qed.

Lemma Tracer_trace_alloc heap self frame what rc self' log :
  tracenames_ok self ->
  Tracer_trace heap self frame what = Returned rc self' log ->
  (tracenames_alloc self' = tracenames_alloc self /\
   length (tracenames self') = length (tracenames self)) \/
  (what = PyTrace_CALL /\ heap = true /\
   depth self + 1 = tracenames_alloc self /\
   depth self' = depth self + 1 /\
   tracenames_alloc self' = tracenames_alloc self + TRACENAMES_DELTA /\
   length (tracenames self') =
     (length (tracenames self) + Z.to_nat TRACENAMES_DELTA)%nat).
Proof.
  intros Hok Ht.
  destruct (Z.eq_dec what PyTrace_CALL) as [->|Hw].
  - assert (Hpushed : can_push heap self ->
              (tracenames_alloc (pushed self) = tracenames_alloc self /\
               length (tracenames (pushed self)) = length (tracenames self)) \/
              (heap = true /\ depth self + 1 = tracenames_alloc self /\
               tracenames_alloc (pushed self) =
                 tracenames_alloc self + TRACENAMES_DELTA /\
               length (tracenames (pushed self)) =
                 (length (tracenames self) + Z.to_nat TRACENAMES_DELTA)%nat)).
    { intros Hpush. unfold pushed. destruct (outgrown self) eqn:Hout.
      - right. destruct Hpush as [?|[-> _]]; [congruence|].
        apply (outgrown_exactly self Hok) in Hout.
        unfold enlarged, entered.
        cbn [tracenames tracenames_alloc depth with_tracenames with_depth].
        rewrite length_app, length_replicate. auto.
      - left. auto. }
    destruct (pushed_fields self) as (_ & _ & _ & _ & Hdepth).
    destruct (Tracer_trace_CALL_post _ _ _ Hok _ _ _ Ht)
      as [(_ & ->)|[(_ & -> & Hpush & _)|(_ & Hpush & r & c & ->)]].
    + left. auto.
    + destruct (Hpushed Hpush) as [?|(? & ? & ? & ?)]; auto 10.
    + destruct (stored_fields r c (pushed self))
        as (_ & _ & _ & _ & Hd' & Ha' & Ht').
      rewrite Ha', Ht', Hd', length_insert.
      destruct (Hpushed Hpush) as [?|(? & ? & ? & ?)]; auto 10.
  - left.
    destruct (not_CALL_keeps_array heap self frame what rc self' log Ht Hw)
      as (-> & -> & _). auto.
Qed.

Lemma run_ok evs : forall self s rcs log,
  tracenames_ok self ->
  run evs self = Some (s, rcs, log) ->
  tracenames_ok s.
Proof.
  induction evs as [|e evs IH]; intros self s rcs log Hok Hrun.
  - cbn in Hrun. inversion Hrun. now subst.
  - apply run_cons_inv in Hrun.
    destruct Hrun as (rc & self1 & log1 & rcs' & log' & Ht & Hrun & _ & _).
    eapply IH; [|exact Hrun]. eapply Tracer_trace_ok; eassumption.
Qed.

Lemma run_alloc evs : forall self s rcs log,
  tracenames_ok self ->
  run evs self = Some (s, rcs, log) ->
  (exists n : nat,
     (n <= length evs)%nat /\
     tracenames_alloc s = tracenames_alloc self + Z.of_nat n * TRACENAMES_DELTA) /\
  tracenames_alloc s <=
    Z.max (tracenames_alloc self)
          (depth self + Z.of_nat (length evs) + TRACENAMES_DELTA) /\
  depth s <= depth self + Z.of_nat (length evs).
Proof.
  induction evs as [|e evs IH]; intros self s rcs log Hok Hrun.
  - cbn in Hrun. inversion Hrun. subst. cbn [length].
    split; [exists 0%nat; split; [lia|lia]|]. unfold TRACENAMES_DELTA. lia.
  - apply run_cons_inv in Hrun.
    destruct Hrun as (rc & self1 & log1 & rcs' & log' & Ht & Hrun & _ & _).
    pose proof (Tracer_trace_ok _ _ _ _ _ _ _ Hok Ht) as Hok1.
    destruct (IH _ _ _ _ Hok1 Hrun) as ((n & Hn & Hmul) & Hmax & Hdep).
    destruct (Tracer_trace_depth _ _ _ _ _ _ _ Hok Ht) as (_ & _ & Hd1).
    cbn [length].
    destruct (Tracer_trace_alloc _ _ _ _ _ _ _ Hok Ht)
      as [(Ha & _)|(_ & _ & Hfull & Hd' & Ha & _)].
    + split; [exists n; split; [lia|congruence]|]. lia.
    + split; [exists (S n); split; [lia|lia]|]. unfold TRACENAMES_DELTA in *. lia.
Qed.

(** X4.  Over any run of events the array only grows, by whole steps of
    [TRACENAMES_DELTA] entries and by at most one step per event; it never
    gets more than [TRACENAMES_DELTA] entries ahead of the deepest level
    the events could reach; and the invariant holds at the end. *)
Theorem tracenames_grow_in_steps evs self s rcs log :
  tracenames_ok self ->
  run evs self = Some (s, rcs, log) ->
  tracenames_ok s /\
  tracenames_alloc self <= tracenames_alloc s /\
  (exists n : nat,
     (n <= length evs)%nat /\
     tracenames_alloc s = tracenames_alloc self + Z.of_nat n * TRACENAMES_DELTA) /\
  tracenames_alloc s <=
    Z.max (tracenames_alloc self)
          (depth self + Z.of_nat (length evs) + TRACENAMES_DELTA).
Proof.
  intros Hok Hrun.
  destruct (run_alloc _ _ _ _ _ Hok Hrun) as ((n & Hn & Hmul) & Hmax & _).
  split; [eapply run_ok; eassumption|].
  split; [unfold TRACENAMES_DELTA in *; lia|].
  split; [exists n; auto|exact Hmax].
Qed.

(** The array is as large as a fresh one that has seen the present depth,
    and no larger. *)
Lemma snug_step heap self frame self' log :
  tracenames_ok self ->
  tracenames_alloc self =
    TRACENAMES_DELTA * (Z.max 0 (depth self) / TRACENAMES_DELTA + 1) ->
  Tracer_trace heap self frame PyTrace_CALL = Returned 0 self' log ->
  depth self' = depth self + 1 /\
  tracenames_alloc self' =
    TRACENAMES_DELTA * (Z.max 0 (depth self') / TRACENAMES_DELTA + 1).
Proof.
  intros Hok Hsnug Ht.
  assert (Hd' : depth self' = depth self + 1).
  { destruct (pushed_fields self) as (_ & _ & _ & _ & Hdepth).
    destruct (Tracer_trace_CALL_post _ _ _ Hok _ _ _ Ht)
      as [(? & _)|[(? & _)|(_ & _ & r & c & ->)]]; try discriminate.
    exact Hdepth. }
  split; [exact Hd'|].
  pose proof (Tracer_trace_ok _ _ _ _ _ _ _ Hok Ht) as (_ & Hin' & _).
  pose proof Hok as (_ & Hd & _).
  destruct (Tracer_trace_alloc _ _ _ _ _ _ _ Hok Ht)
    as [(Ha & _)|(_ & _ & Hfull & _ & Ha & _)].
  all: rewrite Ha, Hd' in *; unfold TRACENAMES_DELTA in *;
    Z.to_euclidean_division_equations; lia.
Qed.

Lemma run_nested_calls evs : forall self s rcs log,
  tracenames_ok self ->
  tracenames_alloc self =
    TRACENAMES_DELTA * (Z.max 0 (depth self) / TRACENAMES_DELTA + 1) ->
  Forall (fun e => ev_what e = PyTrace_CALL) evs ->
  run evs self = Some (s, rcs, log) ->
  Forall (fun rc => rc = 0) rcs ->
  depth s = depth self + Z.of_nat (length evs) /\
  tracenames_alloc s =
    TRACENAMES_DELTA * (Z.max 0 (depth s) / TRACENAMES_DELTA + 1).
Proof.
  induction evs as [|e evs IH]; intros self s rcs log Hok Hsnug Hcalls Hrun Hrcs.
  - cbn in Hrun. inversion Hrun. subst. cbn [length]. split; [lia|exact Hsnug].
  - apply run_cons_inv in Hrun.
    destruct Hrun as (rc & self1 & log1 & rcs' & log' & Ht & Hrun & -> & _).
    inversion Hcalls as [|? ? Hw Hcalls']. subst.
    inversion Hrcs as [|? ? Hrc Hrcs']. subst.
    rewrite Hw in Ht.
    pose proof (Tracer_trace_ok _ _ _ _ _ _ _ Hok Ht) as Hok1.
    destruct (snug_step _ _ _ _ _ Hok Hsnug Ht) as (Hd1 & Hsnug1).
    destruct (IH _ _ _ _ Hok1 Hsnug1 Hcalls' Hrun Hrcs') as (Hd & Ha).
    cbn [length]. split; [lia|exact Ha].
Qed.

(** X5.  Calls nested in one another, each handled without error, on a
    Tracer that starts with no frame tracked and the initial
    [TRACENAMES_DELTA] entries: after [n] of them the depth is [n - 1] and
    the array has exactly [TRACENAMES_DELTA * (depth / TRACENAMES_DELTA + 1)]
    entries.  The array is reallocated once every [TRACENAMES_DELTA] levels:
    its growth is linear in the depth. *)
Theorem nested_calls_allocation evs self s rcs log :
  tracenames_ok self ->
  depth self = -1 ->
  tracenames_alloc self = TRACENAMES_DELTA ->
  Forall (fun e => ev_what e = PyTrace_CALL) evs ->
  run evs self = Some (s, rcs, log) ->
  Forall (fun rc => rc = 0) rcs ->
  depth s = Z.of_nat (length evs) - 1 /\
  tracenames_alloc s =
    TRACENAMES_DELTA * (Z.max 0 (depth s) / TRACENAMES_DELTA + 1).
Proof.
  intros Hok Hd Ha Hcalls Hrun Hrcs.
  destruct (run_nested_calls evs self s rcs log Hok) as (Hds & Has); auto.
  - rewrite Ha, Hd. reflexivity.
  - split; [lia|exact Has].
Qed.

(** ** The cache over a run *)

Lemma memo_step_cache_kept self frame what self' log filename r :
  memo_step self frame what self' log ->
  should_trace_cache self !! filename = Some r ->
  should_trace_cache self' !! filename = Some r.
Proof.
  intros [Hc _|_ _ _ Hc _|r0 _ Hmiss _ Hc _] Hin; rewrite Hc; try assumption.
  rewrite lookup_insert_ne; [assumption|]. congruence.
Qed.

Lemma run_should_trace evs : forall self s rcs log,
  run evs self = Some (s, rcs, log) -> should_trace s = should_trace self.
Proof.
  induction evs as [|e evs IH]; intros self s rcs log Hrun.
  - cbn in Hrun. now inversion Hrun.
  - apply run_cons_inv in Hrun.
    destruct Hrun as (rc & self1 & log1 & rcs' & log' & Ht & Hrun & _ & _).
    apply Tracer_trace_memo in Ht. destruct Ht as [Hst _].
    rewrite (IH _ _ _ _ Hrun). exact Hst.
Qed.

Lemma run_cache_kept evs : forall self s rcs log filename r,
  run evs self = Some (s, rcs, log) ->
  should_trace_cache self !! filename = Some r ->
  should_trace_cache s !! filename = Some r.
Proof.
  induction evs as [|e evs IH]; intros self s rcs log filename r Hrun Hin.
  - cbn in Hrun. inversion Hrun. now subst.
  - apply run_cons_inv in Hrun.
    destruct Hrun as (rc & self1 & log1 & rcs' & log' & Ht & Hrun & _ & _).
    apply Tracer_trace_memo in Ht. destruct Ht as [_ Hm].
    eapply IH; [exact Hrun|]. eapply memo_step_cache_kept; eassumption.
Qed.

Lemma run_cache_origin evs : forall self s rcs log filename r,
  run evs self = Some (s, rcs, log) ->
  should_trace_cache s !! filename = Some r ->
  should_trace_cache self !! filename = Some r \/
  (should_trace_cache self !! filename = None /\
   In (Ask filename (Some r)) log /\
   exists e, In e evs /\ ev_what e = PyTrace_CALL /\
             co_filename (ev_frame e) = filename /\
             should_trace self filename (ev_frame e) = Some r).
Proof.
  induction evs as [|e evs IH]; intros self s rcs log filename r Hrun Hin.
  - cbn in Hrun. inversion Hrun. subst. auto.
  - apply run_cons_inv in Hrun.
    destruct Hrun as (rc & self1 & log1 & rcs' & log' & Ht & Hrun & _ & ->).
    apply Tracer_trace_memo in Ht. destruct Ht as [Hst Hm].
    destruct (IH _ _ _ _ _ _ Hrun Hin) as [Hin1|(Hnone1 & Hlog & e' & He' & Hw & Hf & Hans)].
    + destruct Hm as [Hc _|_ _ _ Hc _|r0 Hw Hmiss Hans Hc ->];
        rewrite Hc in Hin1; auto.
      destruct (decide (co_filename (ev_frame e) = filename)) as [Heq|Hne].
      * rewrite Heq, lookup_insert_eq in Hin1. inversion Hin1. subst r0.
        right. rewrite <- Heq. split; [exact Hmiss|]. split.
        -- cbn. auto.
        -- exists e. auto using in_eq.
      * rewrite lookup_insert_ne in Hin1 by assumption. auto.
    + right. split; [eapply memo_step_cache_grows; eassumption|].
      split; [apply in_or_app; now right|].
      exists e'. rewrite <- Hst. auto using in_cons.
Qed.

(** X6.  Over any run of events the cache only grows and [should_trace]
    stays the same: an entry that is there stays as it is, and every entry
    that was not there at the start is the object [should_trace] returned
    on a Call of the run for that filename, with the frame of that Call. *)
Theorem cache_holds_the_answers evs self s rcs log :
  run evs self = Some (s, rcs, log) ->
  should_trace s = should_trace self /\
  (forall filename r,
     should_trace_cache self !! filename = Some r ->
     should_trace_cache s !! filename = Some r) /\
  (forall filename r,
     should_trace_cache s !! filename = Some r ->
     should_trace_cache self !! filename = Some r \/
     (should_trace_cache self !! filename = None /\
      In (Ask filename (Some r)) log /\
      exists e, In e evs /\ ev_what e = PyTrace_CALL /\
                co_filename (ev_frame e) = filename /\
                should_trace self filename (ev_frame e) = Some r)).
Proof.
  intros Hrun. split; [eapply run_should_trace; eassumption|]. split.
  - intros filename r. eapply run_cache_kept; eassumption.
  - intros filename r. eapply run_cache_origin; eassumption.
Qed.

(** ** Where the recorded hits come from *)

Lemma lookup_enlarged_Name (p : list slot) n i tracename :
  (p ++ replicate n Indeterminate) !! i = Some (Name tracename) ->
  p !! i = Some (Name tracename).
Proof.
  intros H. destruct (decide (i < length p)%nat) as [Hlt|Hge].
  - now rewrite lookup_app_l in H.
  - rewrite lookup_app_r in H by lia.
    apply lookup_replicate in H. destruct H as [H _]. discriminate.
Qed.

Lemma pushed_names_cached self :
  names_cached self -> names_cached (pushed self).
Proof.
  intros Hn i t Hi.
  destruct (pushed_fields self) as (_ & _ & -> & _ & _).
  apply (Hn i). unfold pushed in Hi.
  destruct (outgrown self); [|exact Hi].
  unfold enlarged, entered in Hi. cbn in Hi.
  eapply lookup_enlarged_Name. exact Hi.
Qed.

Lemma stored_names_cached r c self2 filename :
  names_cached self2 ->
  (forall f o, should_trace_cache self2 !! f = Some o -> c !! f = Some o) ->
  c !! filename = Some r ->
  names_cached (stored r c self2).
Proof.
  intros Hn Hkept Hr i t Hi.
  destruct (stored_fields r c self2) as (_ & _ & -> & _ & _ & _ & Ht).
  rewrite Ht in Hi.
  destruct (decide (i = Z.to_nat (depth self2))) as [->|Hne].
  - destruct (decide (Z.to_nat (depth self2) < length (tracenames self2))%nat)
      as [Hlt|Hge].
    + rewrite list_lookup_insert_eq in Hi by assumption.
      destruct r; try discriminate. inversion Hi. subst. eauto.
    + rewrite list_insert_ge in Hi by lia.
      destruct (Hn _ _ Hi) as [f Hf]. eauto.
  - rewrite list_lookup_insert_ne in Hi by congruence.
    destruct (Hn _ _ Hi) as [f Hf]. eauto.
Qed.

Lemma Tracer_trace_names_cached heap self frame what rc self' log :
  tracenames_ok self ->
  names_cached self ->
  Tracer_trace heap self frame what = Returned rc self' log ->
  names_cached self'.
Proof.
  intros Hok Hn Ht.
  destruct (Z.eq_dec what PyTrace_CALL) as [->|Hw].
  - destruct (pushed_fields self) as (_ & _ & Hc & _ & _).
    destruct (Tracer_trace_CALL_cases heap self frame Hok)
      as [(_ & _ & Hr)|[(_ & _ & _ & Hr)|(Hpush & [(r & Hhit & Hr)|[(_ & _ & Hr)|(r & Hmiss & _ & Hr)]])]];
      rewrite Ht in Hr; try discriminate; inversion Hr; subst.
    + exact Hn.
    + apply stored_names_cached with (co_filename frame).
      * now apply pushed_names_cached.
      * intros f o. now rewrite Hc.
      * exact Hhit.
    + now apply pushed_names_cached.
    + apply stored_names_cached with (co_filename frame).
      * now apply pushed_names_cached.
      * intros f o Hf. rewrite Hc in Hf.
        rewrite lookup_insert_ne; [exact Hf|]. congruence.
      * apply lookup_insert_eq.
  - destruct (not_CALL_keeps_array _ _ _ _ _ _ _ Ht Hw) as (_ & Ht' & Hc').
    intros i t Hi. rewrite Ht' in Hi. rewrite Hc'. eapply Hn. exact Hi.
Qed.

Lemma Tracer_trace_data heap self frame what rc self' log key :
  Tracer_trace heap self frame what = Returned rc self' log ->
  data self' !! key = data self !! key \/
  (what = PyTrace_LINE /\ data self' !! key = Some PyNone /\
   exists tracename,
     key = (tracename, f_lineno frame) /\
     read_slot (tracenames self) (depth self) = Some (Name tracename)).
Proof.
  intros Ht. by_what what.
  - destruct (Tracer_trace_CALL_keeps _ _ _ _ _ _ Ht) as (_ & -> & _). auto.
  - apply Tracer_trace_EXCEPTION_inv in Ht.
    destruct Ht as (_ & [(_ & -> & _)|(_ & _ & rc' & Hr)]); [auto|].
    apply Tracer_trace_RETURN_inv in Hr.
    destruct Hr as (_ & _ & [(_ & ->)|(_ & -> & _)]); auto.
  - rewrite Tracer_trace_LINE in Ht. unfold case_LINE in Ht.
    destruct (0 <=? depth self); [|inversion Ht; auto].
    destruct (read_slot (tracenames self) (depth self)) as [[| |t]|] eqn:Hs;
      try discriminate; inversion Ht; subst; [auto|].
    cbn [data with_data].
    destruct (decide ((t, f_lineno frame) = key)) as [<-|Hne].
    + right. rewrite lookup_insert_eq. eauto.
    + left. now apply lookup_insert_ne.
  - apply Tracer_trace_RETURN_inv in Ht.
    destruct Ht as (_ & _ & [(_ & ->)|(_ & -> & _)]); auto.
  - rewrite Tracer_trace_other in Ht by assumption. inversion Ht. auto.
Qed.

Lemma read_slot_Some_lookup (p : list slot) i v :
  read_slot p i = Some v -> p !! Z.to_nat i = Some v.
Proof. unfold read_slot. destruct (0 <=? i); [auto|discriminate]. Qed.

Lemma run_names_cached evs : forall self s rcs log,
  tracenames_ok self -> names_cached self ->
  run evs self = Some (s, rcs, log) ->
  names_cached s.
Proof.
  induction evs as [|e evs IH]; intros self s rcs log Hok Hn Hrun.
  - cbn in Hrun. inversion Hrun. now subst.
  - apply run_cons_inv in Hrun.
    destruct Hrun as (rc & self1 & log1 & rcs' & log' & Ht & Hrun & _ & _).
    eapply IH; [| |exact Hrun].
    + eapply Tracer_trace_ok; eassumption.
    + eapply Tracer_trace_names_cached; eassumption.
Qed.

Lemma run_data evs : forall self s rcs log tracename lineno,
  tracenames_ok self -> names_cached self ->
  run evs self = Some (s, rcs, log) ->
  data s !! (tracename, lineno) = data self !! (tracename, lineno) \/
  (data s !! (tracename, lineno) = Some PyNone /\
   (exists e, In e evs /\ ev_what e = PyTrace_LINE /\
              f_lineno (ev_frame e) = lineno) /\
   exists filename,
     should_trace_cache s !! filename = Some (PyString tracename)).
Proof.
  induction evs as [|e evs IH]; intros self s rcs log t l Hok Hn Hrun.
  - cbn in Hrun. inversion Hrun. subst. auto.
  - pose proof Hrun as Hwhole.
    apply run_cons_inv in Hrun.
    destruct Hrun as (rc & self1 & log1 & rcs' & log' & Ht & Hrun & _ & _).
    pose proof (Tracer_trace_ok _ _ _ _ _ _ _ Hok Ht) as Hok1.
    pose proof (Tracer_trace_names_cached _ _ _ _ _ _ _ Hok Hn Ht) as Hn1.
    destruct (IH _ _ _ _ t l Hok1 Hn1 Hrun) as [Hsame|(Hnone & (e' & He' & Hw & Hl) & Hc)].
    + rewrite Hsame.
      destruct (Tracer_trace_data _ _ _ _ _ _ _ (t, l) Ht)
        as [?|(Hw & Hnone & t' & Hkey & Hslot)]; [auto|].
      right. inversion Hkey. subst t' l. split; [exact Hnone|]. split.
      * exists e. auto using in_eq.
      * apply read_slot_Some_lookup in Hslot.
        destruct (Hn _ _ Hslot) as [f Hf]. exists f.
        eapply run_cache_kept; eassumption.
    + right. split; [exact Hnone|]. split; [|exact Hc].
      exists e'. auto using in_cons.
Qed.

(** X7.  Take a Tracer in which every name held in the array is a string
    the cache holds (a fresh Tracer is one: its array holds no name).
    After any run of events, an entry of [data] is either as it was
    before, or it is [None] under a key [(tracename, lineno)] where
    [lineno] is the line of a Line event of the run and [tracename] is a
    string the cache holds for some file: hits are only ever recorded
    under names that [should_trace] gave, or that the cache was given, and
    no entry of [data] is ever removed. *)
Theorem hits_are_lines_under_cached_names evs self s rcs log :
  tracenames_ok self ->
  names_cached self ->
  run evs self = Some (s, rcs, log) ->
  names_cached s /\
  forall tracename lineno,
    data s !! (tracename, lineno) = data self !! (tracename, lineno) \/
    (data s !! (tracename, lineno) = Some PyNone /\
     (exists e, In e evs /\ ev_what e = PyTrace_LINE /\
                f_lineno (ev_frame e) = lineno) /\
     exists filename,
       should_trace_cache s !! filename = Some (PyString tracename)).
Proof.
  intros Hok Hn Hrun. split.
  - eapply run_names_cached; eassumption.
  - intros t l. eapply run_data; eassumption.
Qed.

(** ** One call, from Call to Return *)

Lemma run_app evs1 : forall evs2 self,
  run (evs1 ++ evs2) self =
    match run evs1 self with
    | None => None
    | Some (s1, rcs1, log1) =>
        match run evs2 s1 with
        | None => None
        | Some (s2, rcs2, log2) => Some (s2, rcs1 ++ rcs2, log1 ++ log2)
        end
    end.
Proof.
  induction evs1 as [|e evs1 IH]; intros evs2 self.
  - cbn. now destruct (run evs2 self) as [[[s2 rcs2] log2]|].
  - cbn [app run].
    destruct (Tracer_trace _ _ _ _) as [rc self1 log1|]; [|reflexivity].
    rewrite IH.
    destruct (run evs1 self1) as [[[s1 rcs1] l1]|]; [|reflexivity].
    destruct (run evs2 s1) as [[[s2 rcs2] l2]|]; [|reflexivity].
    now rewrite app_assoc.
Qed.

Lemma with_data_same self : with_data (data self) self = self.
Proof. now destruct self. Qed.

Lemma run_lines lines : forall self v,
  0 <= depth self ->
  read_slot (tracenames self) (depth self) = Some v ->
  v <> Indeterminate ->
  Forall (fun e => ev_what e = PyTrace_LINE) lines ->
  run lines self =
    Some (with_data (recorded v lines (data self)) self,
          replicate (length lines) 0,
          replicate (length lines) (Enter PyTrace_LINE)).
Proof.
  induction lines as [|e lines IH]; intros self v Hd Hv Hne Hall.
  - cbn. destruct v; cbn; now rewrite with_data_same.
  - inversion Hall as [|? ? Hw Hall']. subst.
    cbn [run]. rewrite Hw, Tracer_trace_LINE. unfold case_LINE.
    apply Z.leb_le in Hd. rewrite Hd, Hv. apply Z.leb_le in Hd.
    destruct v as [| |t]; [contradiction| |].
    + rewrite (IH self NULL) by assumption. cbn. reflexivity.
    + rewrite (IH (with_data _ self) (Name t)) by assumption.
      cbn. reflexivity.
Qed.

(** X8.  One whole call of a function that calls nothing: a Call that is
    handled with decision [r] (from the cache, or from [should_trace] on a
    miss), then Line events, then the Return.  Every event returns 0; the
    depth is back where it was; the cache holds [r] for the file; and
    [data] has gained exactly the lines of the Line events under the name
    when [r] is a string object, and is untouched when [r] is anything
    else. *)
Theorem call_lines_return heap self frame r lines ret :
  tracenames_ok self ->
  can_push heap self ->
  should_trace_cache self !! co_filename frame = Some r \/
  (should_trace_cache self !! co_filename frame = None /\
   should_trace self (co_filename frame) frame = Some r) ->
  Forall (fun e => ev_what e = PyTrace_LINE) lines ->
  ev_what ret = PyTrace_RETURN ->
  exists s log,
    run (mkEvent frame PyTrace_CALL heap :: lines ++ [ret]) self =
      Some (s, replicate (length lines + 2) 0, log) /\
    depth s = depth self /\
    should_trace_cache s = <[co_filename frame := r]> (should_trace_cache self) /\
    data s = recorded (slot_of r) lines (data self).
Proof.
  intros Hok Hpush Hdec Hlines Hret.
  assert (Hcall : exists c log1,
            Tracer_trace heap self frame PyTrace_CALL =
              Returned 0 (stored r c (pushed self)) log1 /\
            c = <[co_filename frame := r]> (should_trace_cache self)).
  { destruct (Tracer_trace_CALL_cases heap self frame Hok)
      as [(Hout & Hover & _)|[(Hout & Hheap & _)|(_ & [(r' & Hhit & Ht)|[(Hmiss & Hfail & _)|(r' & Hmiss & Hans & Ht)]])]].
    - destruct Hpush as [?|[_ ?]]; [congruence|lia].
    - destruct Hpush as [?|[? _]]; congruence.
    - destruct Hdec as [Hhit'|[Hmiss' _]]; [|congruence].
      assert (r' = r) by congruence. subst r'.
      eexists _, _. split; [exact Ht|]. symmetry. now apply insert_id.
    - destruct Hdec as [?|[_ ?]]; congruence.
    - destruct Hdec as [?|[_ Hans']]; [congruence|].
      assert (r' = r) by congruence. subst r'. eauto. }
  destruct Hcall as (c & log1 & Hcall & ->).
  set (c := <[co_filename frame := r]> (should_trace_cache self)) in *.
  set (self1 := stored r c (pushed self)) in *.
  destruct (stored_fields r c (pushed self))
    as (_ & Hdata1 & Hc1 & _ & Hd1 & _ & Ht1).
  destruct (pushed_fields self) as (_ & Hdatap & _ & _ & Hdepth).
  pose proof (pushed_depth_in_range heap self Hok Hpush) as Hin.
  assert (Hd0 : 0 <= depth self1) by (unfold self1; lia).
  assert (Hslot : read_slot (tracenames self1) (depth self1) = Some (slot_of r)).
  { unfold self1. rewrite Ht1, Hd1. now apply read_write_same. }
  pose proof (run_lines lines self1 (slot_of r) Hd0 Hslot
                (slot_of_not_Indeterminate r) Hlines) as Hrun.
  set (self2 := with_data (recorded (slot_of r) lines (data self1)) self1) in *.
  assert (Hpop : Tracer_trace (ev_heap ret) self2 (ev_frame ret) PyTrace_RETURN =
                 Returned 0 (with_depth (depth self2 - 1) self2)
                          [Enter PyTrace_RETURN]).
  { rewrite Tracer_trace_RETURN. unfold case_RETURN.
    change (depth self2) with (depth self1).
    change (tracenames self2) with (tracenames self1).
    apply Z.leb_le in Hd0. rewrite Hd0, Hslot.
    destruct (slot_of r) eqn:Hs; [now destruct r| |]; reflexivity. }
  eexists (with_depth (depth self2 - 1) self2), _. split; [|split; [|split]].
  - cbn [run ev_heap ev_frame ev_what]. rewrite Hcall, run_app, Hrun.
    cbn [run]. rewrite Hret, Hpop.
    do 2 f_equal. f_equal.
    replace (length lines + 2)%nat with (S (length lines + 1)) by lia.
    cbn [replicate]. f_equal. rewrite replicate_add. reflexivity.
  - cbn [depth with_depth]. change (depth self2) with (depth self1).
    unfold self1. lia.
  - cbn. reflexivity.
  - cbn [data with_depth]. unfold self2. cbn [data with_data].
    unfold self1. now rewrite Hdata1, Hdatap.
Qed.

(** ** Balance with events of every kind *)

Lemma Tracer_trace_depth_pops heap self frame what rc self' log :
  Tracer_trace heap self frame what = Returned rc self' log ->
  what <> PyTrace_CALL ->
  if pops what frame
  then (depth self < 0 /\ depth self' = depth self) \/
       (0 <= depth self /\ depth self' = depth self - 1)
  else depth self' = depth self.
Proof.
  intros Ht Hw.
  assert (Hret : forall heap frame rc self' log,
            Tracer_trace heap self frame PyTrace_RETURN = Returned rc self' log ->
            (depth self < 0 /\ depth self' = depth self) \/
            (0 <= depth self /\ depth self' = depth self - 1)).
  { intros heap0 frame0 rc0 s0 log0 Hr. apply Tracer_trace_RETURN_inv in Hr.
    destruct Hr as (_ & _ & [(Hd & ->)|(Hd & -> & _)]); auto. }
  unfold pops. by_what what.
  - contradiction.
  - cbn. apply Tracer_trace_EXCEPTION_inv in Ht.
    destruct Ht as (_ & [(-> & -> & _)|(-> & _ & rc' & Hr)]); [reflexivity|].
    eapply Hret. exact Hr.
  - cbn. rewrite Tracer_trace_LINE in Ht.
    destruct (case_LINE_data self frame) as [[d Hl]|Hl]; rewrite Hl in Ht;
      [|discriminate].
    now inversion Ht.
  - cbn. eapply Hret. exact Ht.
  - rewrite Tracer_trace_other in Ht by assumption. inversion Ht. subst.
    replace (what =? PyTrace_RETURN) with false by (symmetry; now apply Z.eqb_neq).
    replace (what =? PyTrace_EXCEPTION) with false
      by (symmetry; now apply Z.eqb_neq).
    reflexivity.
Qed.

Lemma well_nested_run_ends_empty evs : forall open self s rcs log,
  well_nested open evs = true ->
  tracenames_ok self ->
  depth self + 1 <= Z.of_nat open ->
  run evs self = Some (s, rcs, log) ->
  depth s = -1.
Proof.
  induction evs as [|e evs IH]; intros open self s rcs log Hn Hok Hd Hrun.
  - cbn in Hn, Hrun. apply Nat.eqb_eq in Hn. inversion Hrun. subst.
    destruct Hok as (_ & Hd0 & _). lia.
  - apply run_cons_inv in Hrun.
    destruct Hrun as (rc & self1 & log1 & rcs' & log' & Ht & Hrun & _ & _).
    pose proof (Tracer_trace_ok _ _ _ _ _ _ _ Hok Ht) as Hok1.
    cbn [well_nested] in Hn.
    destruct (ev_what e =? PyTrace_CALL) eqn:Hw.
    + apply Z.eqb_eq in Hw.
      destruct (Tracer_trace_depth _ _ _ _ _ _ _ Hok Ht) as (Hcall & _ & _).
      apply (IH (S open) self1 s rcs' log'); auto.
      destruct (Hcall Hw); lia.
    + apply Z.eqb_neq in Hw.
      pose proof (Tracer_trace_depth_pops _ _ _ _ _ _ _ Ht Hw) as Hpops.
      destruct (pops (ev_what e) (ev_frame e)).
      * destruct open as [|open']; [discriminate|].
        apply (IH open' self1 s rcs' log'); auto.
        destruct Hpops as [[? ?]|[? ?]]; lia.
      * apply (IH open self1 s rcs' log'); auto. lia.
Qed.

(** X9.  Balance for traces as the interpreter sends them.  Let every Call
    be closed once by a Return, or by the Exception of a pyexpat frame
    that stands for it, with Line events, other Exceptions and events of
    other kinds anywhere in between.  From a Tracer with no frame tracked,
    a run of such a trace that is defined ends with no frame tracked; and
    the run is defined whenever [should_trace] does not raise and the
    trace is short enough for the counters to stay in the [int] range. *)
Theorem well_nested_run_empties_stack evs self :
  well_nested 0 evs = true ->
  tracenames_ok self ->
  depth self = -1 ->
  (forall s rcs log, run evs self = Some (s, rcs, log) -> depth s = -1) /\
  (Z.of_nat (length evs) + TRACENAMES_DELTA <= INT_MAX ->
   never_fails_on self evs ->
   exists s rcs log, run evs self = Some (s, rcs, log) /\ depth s = -1).
Proof.
  intros Hn Hok Hd.
  assert (Hend : forall s rcs log, run evs self = Some (s, rcs, log) -> depth s = -1).
  { intros s rcs log Hrun.
    apply (well_nested_run_ends_empty evs 0%nat self s rcs log); auto. lia. }
  split; [exact Hend|].
  intros Hlen Hnf.
  destruct (run_defined evs self Hok) as (s & rcs & log & Hrun).
  - intros i Hi. lia.
  - lia.
  - exact Hnf.
  - exists s, rcs, log. split; [exact Hrun|]. eapply Hend. exact Hrun.
Qed.

(** ** When pyexpat sends the Return after all *)

(** X10.  The work-around pops on the Exception alone.  If a pyexpat frame
    called from a tracked frame sends its Exception and then its Return as
    well, two levels are popped for one Call: the depth ends one below
    where it was before the Call, so the caller's level is gone while the
    caller is still running. *)
Theorem pyexpat_return_after_exception_pops_caller heap self frame r :
  tracenames_ok self ->
  levels_written self ->
  0 <= depth self ->
  can_push heap self ->
  is_pyexpat frame = true ->
  should_trace_cache self !! co_filename frame = Some r \/
  (should_trace_cache self !! co_filename frame = None /\
   should_trace self (co_filename frame) frame = Some r) ->
  exists s log,
    run [mkEvent frame PyTrace_CALL heap; mkEvent frame PyTrace_EXCEPTION heap;
         mkEvent frame PyTrace_RETURN heap] self =
      Some (s, [0; 0; 0], log) /\
    depth s = depth self - 1.
Proof.
  intros Hok Hw Hd0 Hpush Hpy Hdec.
  assert (Hcall : exists c log1,
            Tracer_trace heap self frame PyTrace_CALL =
              Returned 0 (stored r c (pushed self)) log1).
  { destruct (Tracer_trace_CALL_cases heap self frame Hok)
      as [(Hout & Hover & _)|[(Hout & Hheap & _)|(_ & [(r' & Hhit & Ht)|[(Hmiss & Hfail & _)|(r' & Hmiss & Hans & Ht)]])]].
    - destruct Hpush as [?|[_ ?]]; [congruence|lia].
    - destruct Hpush as [?|[? _]]; congruence.
    - destruct Hdec as [Hhit'|[Hmiss' _]]; [|congruence].
      assert (r' = r) by congruence. subst r'. eauto.
    - destruct Hdec as [?|[_ ?]]; congruence.
    - destruct Hdec as [?|[_ Hans']]; [congruence|].
      assert (r' = r) by congruence. subst r'. eauto. }
  destruct Hcall as (c & log1 & Hcall).
  set (self1 := stored r c (pushed self)) in *.
  destruct (stored_fields r c (pushed self)) as (_ & _ & _ & _ & Hd1 & _ & Ht1).
  destruct (pushed_fields self) as (_ & _ & _ & _ & Hdepth).
  pose proof (pushed_depth_in_range heap self Hok Hpush) as Hin.
  pose proof (stored_written heap self r c Hok Hpush Hw) as Hw1.
  fold self1 in Hw1.
  assert (Hdepth1 : depth self1 = depth self + 1) by (unfold self1; lia).
  (* the Exception pops the level of the pyexpat frame *)
  set (self2 := with_depth (depth self1 - 1) self1).
  assert (Hexc : Tracer_trace heap self1 frame PyTrace_EXCEPTION =
                 Returned 0 self2 [Enter PyTrace_EXCEPTION; Enter PyTrace_RETURN]).
  { rewrite Tracer_trace_EXCEPTION, Hpy, Tracer_trace_RETURN.
    destruct (case_RETURN_cases self1) as [[Hneg _]|[(_ & _ & ->)|(_ & Hbad & _)]].
    - lia.
    - reflexivity.
    - destruct (Hw1 (depth self1)) as (v & Hv & Hne); [lia|].
      destruct Hbad; congruence. }
  (* the Return pops the caller's *)
  assert (Hw2 : levels_written self2).
  { apply levels_written_below; [exact Hw1|lia]. }
  assert (Hret : Tracer_trace heap self2 frame PyTrace_RETURN =
                 Returned 0 (with_depth (depth self2 - 1) self2)
                          [Enter PyTrace_RETURN]).
  { rewrite Tracer_trace_RETURN.
    destruct (case_RETURN_cases self2) as [[Hneg _]|[(_ & _ & ->)|(_ & Hbad & _)]].
    - unfold self2 in Hneg. cbn in Hneg. lia.
    - reflexivity.
    - destruct (Hw2 (depth self2)) as (v & Hv & Hne);
        [unfold self2; cbn; lia|].
      destruct Hbad; congruence. }
  eexists _, _. split.
  - cbn [run ev_heap ev_frame ev_what]. rewrite Hcall, Hexc, Hret. reflexivity.
  - cbn. lia.
Qed.

(** ** Tracer_dealloc *)

Lemma names_in_app p q : names_in (p ++ q) = names_in p ++ names_in q.
Proof.
  induction p as [|v p IH]; [reflexivity|].
  destruct v; cbn; now rewrite IH.
Qed.

Lemma release_levels_spec n : forall self fuel,
  Z.to_nat (depth self + 1) = n ->
  (n < fuel)%nat ->
  levels_written self ->
  release_levels fuel self =
    Released (rev (names_in (take n (tracenames self)))).
Proof.
  induction n as [|n IH]; intros self fuel Hn Hfuel Hw.
  - destruct fuel as [|fuel]; [lia|]. cbn [release_levels].
    replace (0 <=? depth self) with false by (symmetry; apply Z.leb_gt; lia).
    reflexivity.
  - destruct fuel as [|fuel]; [lia|]. cbn [release_levels].
    assert (Hd : depth self = Z.of_nat n) by lia.
    replace (0 <=? depth self) with true by (symmetry; apply Z.leb_le; lia).
    destruct (Hw (depth self)) as (v & Hv & Hne); [lia|].
    rewrite Hv.
    assert (Hlook : tracenames self !! n = Some v).
    { apply read_slot_Some_lookup in Hv. now rewrite Hd, Nat2Z.id in Hv. }
    rewrite (take_S_r _ _ _ Hlook), names_in_app, rev_app_distr.
    assert (Hrec : release_levels fuel (with_depth (depth self - 1) self) =
                   Released (rev (names_in (take n (tracenames self))))).
    { apply (IH (with_depth (depth self - 1) self)).
      - cbn. lia.
      - lia.
      - apply levels_written_below; [exact Hw|lia]. }
    rewrite Hrec. destruct v; [contradiction|reflexivity|reflexivity].
Qed.

Lemma release_levels_written n : forall self fuel names,
  Z.to_nat (depth self + 1) = n ->
  release_levels fuel self = Released names ->
  levels_written self.
Proof.
  induction n as [|n IH]; intros self fuel names Hn Hrel i Hi.
  - lia.
  - destruct fuel as [|fuel]; [discriminate|]. cbn [release_levels] in Hrel.
    replace (0 <=? depth self) with true in Hrel
      by (symmetry; apply Z.leb_le; lia).
    destruct (read_slot (tracenames self) (depth self)) as [v|] eqn:Hv;
      [|discriminate].
    destruct (Z.eq_dec i (depth self)) as [->|Hne].
    + exists v. split; [exact Hv|]. destruct v; [discriminate| |]; discriminate.
    + assert (Hrest : exists names',
                release_levels fuel (with_depth (depth self - 1) self) =
                  Released names').
      { destruct v; [discriminate|eauto|].
        destruct (release_levels fuel (with_depth (depth self - 1) self));
          [eauto|discriminate|discriminate]. }
      destruct Hrest as [names' Hrest].
      apply (IH (with_depth (depth self - 1) self) fuel names'
               ltac:(cbn; lia) Hrest i).
      cbn. lia.
Qed.

(** X11.  [Tracer_dealloc] on a Tracer whose levels in use were all
    written: the loop ends after [depth + 1] rounds (more fuel changes
    nothing); it drops one reference for each level that holds a name,
    from the top level down to level 0, and none for what is left over
    above [depth]; the hook is cleared when the Tracer is started, whoever
    registered it, and left alone otherwise.  And the deallocation is
    defined only in that case: a level in use that was never written (as a
    Call on which [should_trace] raised can leave) makes it release an
    indeterminate pointer. *)
Theorem Tracer_dealloc_releases_levels_in_use self hook :
  (levels_written self ->
   Tracer_dealloc self hook =
     Some (if started self then None else hook,
           rev (names_in (take (Z.to_nat (depth self + 1)) (tracenames self)))) /\
   forall n,
     release_levels (S (Z.to_nat (depth self + 1)) + n) self =
       release_levels (S (Z.to_nat (depth self + 1))) self) /\
  (Tracer_dealloc self hook <> None -> levels_written self).
Proof.
  split.
  - intros Hw.
    pose proof (fun fuel H => release_levels_spec _ self fuel eq_refl H Hw) as Hspec.
    split.
    + unfold Tracer_dealloc, PyEval_SetTrace. rewrite Hspec by lia. reflexivity.
    + intros n. rewrite !Hspec by lia. reflexivity.
  - unfold Tracer_dealloc. intros Hdef.
    destruct (release_levels _ self) as [names| |] eqn:Hrel; try contradiction.
    eapply release_levels_written; [reflexivity|exact Hrel].
Qed.

(** ** start and stop *)

Lemma Tracer_trace_started heap self frame what rc self' log :
  Tracer_trace heap self frame what = Returned rc self' log ->
  started self' = started self.
Proof.
  intros Ht. by_what what.
  - now destruct (Tracer_trace_CALL_keeps _ _ _ _ _ _ Ht) as (_ & _ & ?).
  - apply Tracer_trace_EXCEPTION_inv in Ht.
    destruct Ht as (_ & [(_ & -> & _)|(_ & _ & rc' & Hr)]); [reflexivity|].
    apply Tracer_trace_RETURN_inv in Hr.
    now destruct Hr as (_ & _ & [(_ & ->)|(_ & -> & _)]).
  - rewrite Tracer_trace_LINE in Ht.
    destruct (case_LINE_data self frame) as [[d Hl]|Hl]; rewrite Hl in Ht;
      [|discriminate].
    now inversion Ht.
  - apply Tracer_trace_RETURN_inv in Ht.
    now destruct Ht as (_ & _ & [(_ & ->)|(_ & -> & _)]).
  - rewrite Tracer_trace_other in Ht by assumption. now inversion Ht.
Qed.

Lemma run_started evs : forall self s rcs log,
  run evs self = Some (s, rcs, log) -> started s = started self.
Proof.
  induction evs as [|e evs IH]; intros self s rcs log Hrun.
  - cbn in Hrun. now inversion Hrun.
  - apply run_cons_inv in Hrun.
    destruct Hrun as (rc & self1 & log1 & rcs' & log' & Ht & Hrun & _ & _).
    rewrite (IH _ _ _ _ Hrun). eapply Tracer_trace_started. exact Ht.
Qed.

(** X12.  [stop()] followed by [start()] resets nothing.  Let a started
    Tracer handle some events and be stopped: the hook is cleared and
    [started] is 0.  Starting it again registers it and gives back the
    very Tracer that was stopped, with its depth, array, cache and data;
    so the events that follow are handled as if the trace had never been
    cut.  A [stop()] on a Tracer that is not started changes neither the
    Tracer nor the hook. *)
Theorem stop_then_start_resumes addr self hook evs1 evs2 t1 rcs1 log1 :
  run evs1 (fst (Tracer_start_hook addr self hook)) = Some (t1, rcs1, log1) ->
  snd (Tracer_start_hook addr self hook) = Some addr /\
  Tracer_stop_hook t1 (Some addr) = (with_started false t1, None) /\
  Tracer_start_hook addr (with_started false t1) None = (t1, Some addr) /\
  run (evs1 ++ evs2) (fst (Tracer_start_hook addr self hook)) =
    match run evs2 t1 with
    | Some (s, rcs2, log2) => Some (s, rcs1 ++ rcs2, log1 ++ log2)
    | None => None
    end /\
  (forall hook', Tracer_stop_hook (with_started false t1) hook' =
                   (with_started false t1, hook')).
Proof.
  intros Hrun.
  assert (Hst : started t1 = true).
  { now rewrite (run_started _ _ _ _ _ Hrun). }
  split; [reflexivity|]. split; [|split; [|split]].
  - unfold Tracer_stop_hook. now rewrite Hst.
  - unfold Tracer_start_hook, Tracer_start, PyEval_SetTrace.
    f_equal. destruct t1. cbn in *. now subst.
  - now rewrite run_app, Hrun.
  - reflexivity.
Qed.

(** ** Which frames count as pyexpat's *)

Lemma prefix_iff needle : forall haystack,
  String.prefix needle haystack = true <->
  exists post, haystack = (needle ++ post)%string.
Proof.
  induction needle as [|c needle IH]; intros haystack.
  - split; [intros _; now exists haystack|]. intros _. now destruct haystack.
  - destruct haystack as [|c' haystack]; cbn.
    + split; [discriminate|]. intros [post H]. discriminate.
    + destruct (ascii_dec c c') as [->|Hne].
      * rewrite IH. split; intros [post H]; exists post; [now rewrite H|].
        now inversion H.
      * split; [discriminate|]. intros [post H]. inversion H. congruence.
Qed.

Lemma strstr_iff needle : forall haystack,
  strstr haystack needle = true <->
  exists pre post, haystack = (pre ++ needle ++ post)%string.
Proof.
  induction haystack as [|c haystack IH]; cbn [strstr];
    rewrite orb_true_iff, prefix_iff.
  - split.
    + intros [[post H]|H]; [|discriminate]. now exists ""%string, post.
    + intros (pre & post & H). left.
      destruct pre as [|c pre]; [|discriminate]. now exists post.
  - rewrite IH. split.
    + intros [[post H]|(pre & post & H)].
      * now exists ""%string, post.
      * exists (String c pre), post. cbn. now rewrite H.
    + intros (pre & post & H). destruct pre as [|c' pre].
      * left. now exists post.
      * right. inversion H. now exists pre, post.
Qed.

Lemma PyString_AS_STRING_no_NUL s :
  (forall pre post, s <> (pre ++ String Ascii.zero post)%string) ->
  PyString_AS_STRING s = s.
Proof.
  induction s as [|c s IH]; intros Hno; [reflexivity|]. cbn.
  destruct (Ascii.eqb_spec c Ascii.zero) as [->|Hne].
  - exfalso. apply (Hno ""%string s). reflexivity.
  - rewrite IH; [reflexivity|].
    intros pre post H. apply (Hno (String c pre) post). cbn. now rewrite H.
Qed.

Lemma PyString_AS_STRING_NUL pre post :
  PyString_AS_STRING (pre ++ String Ascii.zero post) = PyString_AS_STRING pre.
Proof.
  induction pre as [|c pre IH]; [reflexivity|].
  change (String c pre ++ String Ascii.zero post)%string
    with (String c (pre ++ String Ascii.zero post)).
  cbn [PyString_AS_STRING].
  destruct (Ascii.eqb c Ascii.zero); [reflexivity|]. now rewrite IH.
Qed.

(** X13.  The work-around applies to a frame exactly when "pyexpat.c"
    occurs somewhere in its filename read as a C string, that is before
    the first NUL if there is one: any directory in front and anything
    behind are accepted, and what follows a NUL is not looked at. *)
Theorem is_pyexpat_iff_substring frame :
  (is_pyexpat frame = true <->
   exists pre post,
     PyString_AS_STRING (co_filename frame) = (pre ++ "pyexpat.c" ++ post)%string) /\
  ((forall pre post, co_filename frame <> (pre ++ String Ascii.zero post)%string) ->
   PyString_AS_STRING (co_filename frame) = co_filename frame) /\
  (forall pre post,
     co_filename frame = (pre ++ String Ascii.zero post)%string ->
     is_pyexpat frame = strstr (PyString_AS_STRING pre) "pyexpat.c").
Proof.
  split; [apply strstr_iff|]. split.
  - apply PyString_AS_STRING_no_NUL.
  - intros pre post H. unfold is_pyexpat. now rewrite H, PyString_AS_STRING_NUL.
Qed.

(** ** Line events record a set *)

Lemma record_lines_lookup tracename lines : forall d t l,
  (t = tracename /\
   (exists e, In e lines /\ f_lineno (ev_frame e) = l) /\
   record_lines tracename lines d !! (t, l) = Some PyNone) \/
  (~ (t = tracename /\ exists e, In e lines /\ f_lineno (ev_frame e) = l) /\
   record_lines tracename lines d !! (t, l) = d !! (t, l)).
Proof.
  induction lines as [|e lines IH]; intros d t l.
  - right. split; [|reflexivity]. intros (_ & e & [] & _).
  - change (record_lines tracename (e :: lines) d)
      with (record_lines tracename lines
              (<[(tracename, f_lineno (ev_frame e)) := PyNone]> d)).
    destruct (IH (<[(tracename, f_lineno (ev_frame e)) := PyNone]> d) t l)
      as [(-> & (e' & He' & Hl) & Hlook)|(Hnot & Hlook)].
    + left. split; [reflexivity|]. split; [|exact Hlook].
      exists e'. auto using in_cons.
    + rewrite Hlook.
      destruct (decide ((tracename, f_lineno (ev_frame e)) = (t, l))) as [Heq|Hne].
      * left. inversion Heq. subst. split; [reflexivity|]. split.
        -- exists e. auto using in_eq.
        -- apply lookup_insert_eq.
      * right. split; [|now apply lookup_insert_ne].
        intros (-> & e' & [<-|He'] & Hl).
        -- apply Hne. now rewrite Hl.
        -- apply Hnot. eauto.
Qed.

(** X14.  At a level that is recording, what a run of Line events leaves
    in [data] depends only on the set of their line numbers: two runs of
    Line events with the same lines, in any order and with any
    repetitions, end in the same Tracer, and every event returns 0.  In
    particular a second hit on a line changes nothing. *)
Theorem line_events_record_a_set self tracename lines1 lines2 :
  0 <= depth self ->
  read_slot (tracenames self) (depth self) = Some (Name tracename) ->
  Forall (fun e => ev_what e = PyTrace_LINE) lines1 ->
  Forall (fun e => ev_what e = PyTrace_LINE) lines2 ->
  (forall l, (exists e, In e lines1 /\ f_lineno (ev_frame e) = l) <->
             (exists e, In e lines2 /\ f_lineno (ev_frame e) = l)) ->
  exists s,
    run lines1 self =
      Some (s, replicate (length lines1) 0,
            replicate (length lines1) (Enter PyTrace_LINE)) /\
    run lines2 self =
      Some (s, replicate (length lines2) 0,
            replicate (length lines2) (Enter PyTrace_LINE)) /\
    s = with_data (data s) self /\
    forall t l,
      (t = tracename /\ (exists e, In e lines1 /\ f_lineno (ev_frame e) = l) ->
       data s !! (t, l) = Some PyNone) /\
      (~ (t = tracename /\ exists e, In e lines1 /\ f_lineno (ev_frame e) = l) ->
       data s !! (t, l) = data self !! (t, l)).
Proof.
  intros Hd Hslot H1 H2 Hsame.
  assert (Hne : Name tracename <> Indeterminate) by discriminate.
  pose proof (run_lines lines1 self (Name tracename) Hd Hslot Hne H1) as Hr1.
  pose proof (run_lines lines2 self (Name tracename) Hd Hslot Hne H2) as Hr2.
  cbn [recorded] in Hr1, Hr2.
  assert (Heq : record_lines tracename lines1 (data self) =
                record_lines tracename lines2 (data self)).
  { apply map_eq. intros [t l].
    destruct (record_lines_lookup tracename lines1 (data self) t l)
      as [(Ht1 & Hin1 & ->)|(Hnot1 & ->)];
    destruct (record_lines_lookup tracename lines2 (data self) t l)
      as [(Ht2 & Hin2 & ->)|(Hnot2 & ->)]; try reflexivity.
    - exfalso. apply Hnot2. split; [exact Ht1|]. now apply Hsame.
    - exfalso. apply Hnot1. split; [exact Ht2|]. now apply Hsame. }
  exists (with_data (record_lines tracename lines1 (data self)) self).
  split; [exact Hr1|]. split; [now rewrite Heq|]. split; [reflexivity|].
  intros t l. cbn [data with_data].
  destruct (record_lines_lookup tracename lines1 (data self) t l)
    as [(Ht & Hin & ->)|(Hnot & ->)].
  - split; [reflexivity|]. intros Hnot. exfalso. apply Hnot. auto.
  - split; [|reflexivity]. intros Hin. contradiction.
Qed.

(** ** A whole session, from Tracer_init *)



(** ** After [should_trace] has raised at a level never used *)

(** X16.  The counterpart of the stale slot.  When [should_trace] raises
    on a Call whose level was never written (the array was never that
    deep, or had to grow for it), the Call returns -1 and leaves the depth
    pointing at that level; from then on a Line, a Return, an Exception
    from pyexpat and [Tracer_dealloc] each read the indeterminate pointer:
    their behaviour is undefined.  Only another Call, which writes the
    level above, is still handled. *)
Theorem failed_call_at_fresh_level_poisons heap self frame :
  tracenames_ok self ->
  can_push heap self ->
  should_trace_cache self !! co_filename frame = None ->
  should_trace self (co_filename frame) frame = None ->
  outgrown self = true \/
  read_slot (tracenames self) (depth self + 1) = Some Indeterminate ->
  exists self',
    Tracer_trace heap self frame PyTrace_CALL =
      Returned (-1) self' [Enter PyTrace_CALL; Ask (co_filename frame) None] /\
    depth self' = depth self + 1 /\
    forall heap' frame' hook,
      Tracer_trace heap' self' frame' PyTrace_LINE = Undefined /\
      Tracer_trace heap' self' frame' PyTrace_RETURN = Undefined /\
      (is_pyexpat frame' = true ->
       Tracer_trace heap' self' frame' PyTrace_EXCEPTION = Undefined) /\
      Tracer_dealloc self' hook = None.
Proof.
  intros Hok Hpush Hmiss Hfail Hfresh.
  destruct (pushed_fields self) as (_ & _ & _ & _ & Hdepth).
  exists (pushed self). split; [|split; [exact Hdepth|]].
  - destruct (Tracer_trace_CALL_cases heap self frame Hok)
      as [(Hout & Hover & _)|[(Hout & Hheap & _)|(_ & [(r & Hhit & _)|[(_ & _ & Ht)|(r & _ & Hans & _)]])]].
    + destruct Hpush as [?|[_ ?]]; [congruence|lia].
    + destruct Hpush as [?|[? _]]; congruence.
    + congruence.
    + exact Ht.
    + congruence.
  - assert (Hslot : read_slot (tracenames (pushed self)) (depth (pushed self)) =
                    Some Indeterminate).
    { rewrite Hdepth. destruct Hfresh as [Hout|Hind].
      - now apply pushed_fresh.
      - rewrite pushed_tracenames; [exact Hind|].
        unfold read_slot in Hind.
        destruct (0 <=? depth self + 1) eqn:H0; [|discriminate].
        apply Z.leb_le in H0. apply lookup_lt_Some in Hind. lia. }
    assert (Hd0 : (0 <=? depth (pushed self)) = true).
    { apply Z.leb_le. destruct Hok as (_ & Hd & _). lia. }
    assert (Hret : forall heap' frame',
              Tracer_trace heap' (pushed self) frame' PyTrace_RETURN = Undefined).
    { intros heap' frame'. rewrite Tracer_trace_RETURN. unfold case_RETURN.
      now rewrite Hd0, Hslot. }
    intros heap' frame' hook. split; [|split; [|split]].
    + rewrite Tracer_trace_LINE. unfold case_LINE. now rewrite Hd0, Hslot.
    + apply Hret.
    + intros Hpy. now rewrite Tracer_trace_EXCEPTION, Hpy, Hret.
    + unfold Tracer_dealloc. cbn [release_levels]. now rewrite Hd0, Hslot.
Qed.

(** ** The decision on a cache hit *)

(** X17.  A Call for a file that is in the cache uses the cached object,
    whatever it is, and does not call [should_trace]: the slot of the new
    level is written from it, the cache and [data] stay as they are, the
    result is 0.  What [should_trace] would answer now for this frame, or
    whether it would raise, makes no difference: with any other callable
    in its place the Call ends in the same state. *)
Theorem cache_hit_uses_cached_decision heap self frame r :
  tracenames_ok self ->
  can_push heap self ->
  should_trace_cache self !! co_filename frame = Some r ->
  exists self',
    Tracer_trace heap self frame PyTrace_CALL =
      Returned 0 self' [Enter PyTrace_CALL] /\
    should_trace_cache self' = should_trace_cache self /\
    data self' = data self /\
    depth self' = depth self + 1 /\
    read_slot (tracenames self') (depth self') = Some (slot_of r) /\
    forall st,
      Tracer_trace heap (with_should_trace st self) frame PyTrace_CALL =
        Returned 0 (with_should_trace st self') [Enter PyTrace_CALL].
Proof.
  intros Hok Hpush Hhit.
  assert (Hany : forall t,
            tracenames_ok t -> can_push heap t ->
            should_trace_cache t !! co_filename frame = Some r ->
            Tracer_trace heap t frame PyTrace_CALL =
              Returned 0 (stored r (should_trace_cache t) (pushed t))
                       [Enter PyTrace_CALL]).
  { intros t Hokt Hpusht Hhitt.
    destruct (Tracer_trace_CALL_cases heap t frame Hokt)
      as [(Hout & Hover & _)|[(Hout & Hheap & _)|(_ & [(r' & Hhit' & Ht)|[(Hmiss & _)|(r' & Hmiss & _)]])]].
    - destruct Hpusht as [?|[_ ?]]; [congruence|lia].
    - destruct Hpusht as [?|[? _]]; congruence.
    - assert (r' = r) by congruence. now subst r'.
    - congruence.
    - congruence. }
  exists (stored r (should_trace_cache self) (pushed self)).
  destruct (stored_fields r (should_trace_cache self) (pushed self))
    as (_ & Hdata' & Hc' & _ & Hd' & _ & Ht').
  destruct (pushed_fields self) as (_ & Hdatap & _ & _ & Hdepth).
  pose proof (pushed_depth_in_range heap self Hok Hpush) as Hin.
  split; [now apply Hany|]. split; [exact Hc'|]. split; [congruence|].
  split; [congruence|]. split.
  - rewrite Ht', Hd'. now apply read_write_same.
  - intros st. rewrite (Hany (with_should_trace st self)) by assumption.
    f_equal. unfold stored, pushed, outgrown.
    cbn [tracenames_alloc depth with_should_trace].
    now destruct (tracenames_alloc self <=? depth self + 1).
Qed.

(** * The further properties at work on the example configuration *)

Lemma tracing_tracer_ok : tracenames_ok tracing_tracer.
Proof. repeat split; vm_compute; congruence. Qed.

Lemma tracing_tracer_written : levels_written tracing_tracer.
Proof.
  intros i Hi. assert (i = 0) by (cbn in Hi; lia). subst.
  eexists. split; [reflexivity|discriminate].
Qed.

Lemma example_tracer_names_cached : names_cached example_tracer.
Proof.
  intros i t Hi. unfold example_tracer in Hi. cbn [tracenames] in Hi.
  apply lookup_replicate in Hi. destruct Hi as [Hi _]. discriminate.
Qed.

Lemma scenario_never_fails : never_fails_on example_tracer scenario.
Proof.
  intros e [<-|[<-|[<-|[<-|[<-|[<-|[<-|[]]]]]]]] _ _; vm_compute; congruence.
Qed.

(** The witness of X1: a Line event in "a.py". *)
Lemma footprint_witness :
  exists self',
    Tracer_trace true tracing_tracer (mkFrame "a.py" 10 0) PyTrace_LINE =
      Returned 0 self' [Enter PyTrace_LINE] /\
    should_trace self' = should_trace tracing_tracer /\
    started self' = started tracing_tracer /\
    self' = with_data (data self') tracing_tracer.
Proof.
  eexists. split; [vm_compute; reflexivity|].
  destruct (Tracer_trace_footprint true tracing_tracer (mkFrame "a.py" 10 0)
              PyTrace_LINE 0 _ [Enter PyTrace_LINE] ltac:(vm_compute; reflexivity))
    as (Hst & Hstarted & _ & Hline & _).
  split; [exact Hst|]. split; [exact Hstarted|]. exact (Hline eq_refl).
Defined.

(** The witness of X2: the Call that finds the array full and the heap
    exhausted returns -1. *)
Lemma only_calls_fail_witness :
  tracenames_ok full_tracer /\
  Tracer_trace false full_tracer (mkFrame "a.py" 1 0) PyTrace_CALL =
    Returned (-1) full_tracer [Enter PyTrace_CALL] /\
  (-1 = -1 <->
   PyTrace_CALL = PyTrace_CALL /\
   ((outgrown full_tracer = true /\ false = false) \/
    (can_push false full_tracer /\
     should_trace_cache full_tracer !! "a.py" = None /\
     should_trace full_tracer "a.py" (mkFrame "a.py" 1 0) = None))).
Proof.
  assert (Ht : Tracer_trace false full_tracer (mkFrame "a.py" 1 0) PyTrace_CALL =
               Returned (-1) full_tracer [Enter PyTrace_CALL])
    by (vm_compute; reflexivity).
  split; [exact full_tracer_ok|]. split; [exact Ht|].
  exact (proj2 (only_calls_fail false full_tracer (mkFrame "a.py" 1 0) PyTrace_CALL
                  (-1) full_tracer [Enter PyTrace_CALL] full_tracer_ok Ht)).
Defined.

(** The witness of X3: the first Call of a fresh Tracer. *)
Lemma realloc_only_when_outgrown_witness :
  outgrown example_tracer = false /\
  Tracer_trace true example_tracer (mkFrame "a.py" 9 0) PyTrace_CALL =
    Tracer_trace false example_tracer (mkFrame "a.py" 9 0) PyTrace_CALL.
Proof.
  split; [reflexivity|].
  apply realloc_only_when_outgrown. right. reflexivity.
Defined.

(** The witness of X4: the Call that makes the two-entry array grow. *)
Lemma tracenames_grow_witness :
  tracenames_ok full_tracer /\
  run [event "a.py" 1 PyTrace_CALL] full_tracer =
    Some (grown_tracer, [0], [Enter PyTrace_CALL]) /\
  tracenames_ok grown_tracer /\
  tracenames_alloc full_tracer <= tracenames_alloc grown_tracer /\
  tracenames_alloc grown_tracer = 102.
Proof.
  assert (Hrun : run [event "a.py" 1 PyTrace_CALL] full_tracer =
                 Some (grown_tracer, [0], [Enter PyTrace_CALL]))
    by (vm_compute; reflexivity).
  destruct (tracenames_grow_in_steps _ _ _ _ _ full_tracer_ok Hrun)
    as (Hok & Hle & _).
  split; [exact full_tracer_ok|]. split; [exact Hrun|]. split; [exact Hok|].
  split; [exact Hle|reflexivity].
Defined.

(** The witness of X5: the 101st nested call takes the array to 200
    entries. *)
Lemma nested_calls_allocation_witness :
  exists s rcs log,
    run deep_calls example_tracer = Some (s, rcs, log) /\
    Forall (fun rc => rc = 0) rcs /\
    depth s = 100 /\
    tracenames_alloc s = 200.
Proof.
  assert (Hrun : exists s log,
            run deep_calls example_tracer = Some (s, repeat 0 101, log))
    by (eexists; eexists; vm_compute; reflexivity).
  destruct Hrun as (s & log & Hrun).
  assert (Hrcs : Forall (fun rc => rc = 0) (repeat 0 101)).
  { apply Forall_forall. intros rc Hin.
    apply list_elem_of_In, repeat_spec in Hin. exact Hin. }
  assert (Hcalls : Forall (fun e => ev_what e = PyTrace_CALL) deep_calls).
  { apply Forall_forall. intros e Hin.
    apply list_elem_of_In, repeat_spec in Hin. now subst. }
  destruct (nested_calls_allocation deep_calls example_tracer s _ log
              example_tracer_ok eq_refl eq_refl Hcalls Hrun Hrcs) as (Hd & Ha).
  exists s, (repeat 0 101), log. split; [exact Hrun|]. split; [exact Hrcs|].
  assert (Hd100 : depth s = 100) by (rewrite Hd; reflexivity).
  split; [exact Hd100|]. rewrite Ha, Hd100. reflexivity.
Defined.

(** The witness of X6: after the scenario the cache holds what
    [should_trace] said of "b.py". *)
Lemma cache_holds_the_answers_witness :
  exists s,
    run scenario example_tracer = Some (s, [0; 0; 0; 0; 0; 0; 0], scenario_log) /\
    should_trace s = example_should_trace /\
    should_trace_cache s !! "b.py" = Some (PyBool false) /\
    In (Ask "b.py" (Some (PyBool false))) scenario_log.
Proof.
  assert (Hrun : exists s,
            run scenario example_tracer =
              Some (s, [0; 0; 0; 0; 0; 0; 0], scenario_log) /\
            should_trace_cache s !! "b.py" = Some (PyBool false))
    by (eexists; split; [vm_compute; reflexivity|reflexivity]).
  destruct Hrun as (s & Hrun & Hb).
  destruct (cache_holds_the_answers _ _ _ _ _ Hrun) as (Hst & _ & Horigin).
  exists s. split; [exact Hrun|]. split; [exact Hst|]. split; [exact Hb|].
  destruct (Horigin "b.py" (PyBool false) Hb) as [Hold|(_ & Hin & _)].
  - discriminate Hold.
  - exact Hin.
Defined.

(** The witness of X7: the scenario on a fresh Tracer. *)
Lemma hits_witness :
  tracenames_ok example_tracer /\
  names_cached example_tracer /\
  exists s,
    run scenario example_tracer = Some (s, [0; 0; 0; 0; 0; 0; 0], scenario_log) /\
    names_cached s /\
    data s !! ("b.py", 5) = data example_tracer !! ("b.py", 5).
Proof.
  assert (Hrun : exists s,
            run scenario example_tracer =
              Some (s, [0; 0; 0; 0; 0; 0; 0], scenario_log) /\
            data s !! ("b.py", 5) = None)
    by (eexists; split; [vm_compute; reflexivity|reflexivity]).
  destruct Hrun as (s & Hrun & Hb).
  destruct (hits_are_lines_under_cached_names _ _ _ _ _ example_tracer_ok
              example_tracer_names_cached Hrun) as (Hn & _).
  split; [exact example_tracer_ok|]. split; [exact example_tracer_names_cached|].
  exists s. split; [exact Hrun|]. split; [exact Hn|]. exact Hb.
Defined.

(** The witness of X8: a call of "a.py" with two lines. *)
Lemma call_lines_return_witness :
  tracenames_ok example_tracer /\
  can_push true example_tracer /\
  exists s log,
    run (mkEvent (mkFrame "a.py" 9 0) PyTrace_CALL true ::
         lines_once ++ [event "a.py" 11 PyTrace_RETURN]) example_tracer =
      Some (s, [0; 0; 0; 0], log) /\
    depth s = -1 /\
    data s = <[("a.py", 11) := PyNone]> (<[("a.py", 10) := PyNone]> ∅).
Proof.
  assert (Hpush : can_push true example_tracer) by (left; reflexivity).
  assert (Hlines : Forall (fun e => ev_what e = PyTrace_LINE) lines_once)
    by (repeat constructor).
  destruct (call_lines_return true example_tracer (mkFrame "a.py" 9 0)
              (PyString "a.py") lines_once (event "a.py" 11 PyTrace_RETURN)
              example_tracer_ok Hpush (or_intror (conj eq_refl eq_refl))
              Hlines eq_refl) as (s & log & Hrun & Hd & _ & Hdata).
  split; [exact example_tracer_ok|]. split; [exact Hpush|].
  exists s, log. split; [exact Hrun|]. split; [exact Hd|exact Hdata].
Defined.

(** The witness of X9: a call of "a.py" with a line, a call into pyexpat
    that ends with an Exception, an Exception in "a.py", an event of
    another kind, and the Return. *)
Lemma well_nested_witness :
  well_nested 0 mixed_trace = true /\
  tracenames_ok example_tracer /\
  depth example_tracer = -1 /\
  Z.of_nat (length mixed_trace) + TRACENAMES_DELTA <= INT_MAX /\
  never_fails_on example_tracer mixed_trace /\
  exists s rcs log,
    run mixed_trace example_tracer = Some (s, rcs, log) /\ depth s = -1.
Proof.
  assert (Hlen : Z.of_nat (length mixed_trace) + TRACENAMES_DELTA <= INT_MAX)
    by (vm_compute; congruence).
  assert (Hnf : never_fails_on example_tracer mixed_trace).
  { intros e [<-|[<-|[<-|[<-|[<-|[<-|[<-|[]]]]]]]] _ _; vm_compute; congruence. }
  split; [reflexivity|]. split; [exact example_tracer_ok|].
  split; [reflexivity|]. split; [exact Hlen|]. split; [exact Hnf|].
  exact (proj2 (well_nested_run_empties_stack mixed_trace example_tracer eq_refl
                  example_tracer_ok eq_refl) Hlen Hnf).
Defined.

(** The witness of X10: pyexpat called from "a.py" sends both events, and
    the level of "a.py" is popped while "a.py" is still running. *)
Lemma pyexpat_double_pop_witness :
  tracenames_ok tracing_tracer /\
  levels_written tracing_tracer /\
  0 <= depth tracing_tracer /\
  can_push true tracing_tracer /\
  is_pyexpat (mkFrame "pyexpat.c" 1 0) = true /\
  exists s log,
    run [mkEvent (mkFrame "pyexpat.c" 1 0) PyTrace_CALL true;
         mkEvent (mkFrame "pyexpat.c" 1 0) PyTrace_EXCEPTION true;
         mkEvent (mkFrame "pyexpat.c" 1 0) PyTrace_RETURN true] tracing_tracer =
      Some (s, [0; 0; 0], log) /\
    depth s = depth tracing_tracer - 1.
Proof.
  assert (Hd : 0 <= depth tracing_tracer) by (vm_compute; congruence).
  assert (Hpush : can_push true tracing_tracer) by (left; reflexivity).
  assert (Hpy : is_pyexpat (mkFrame "pyexpat.c" 1 0) = true) by reflexivity.
  split; [exact tracing_tracer_ok|]. split; [exact tracing_tracer_written|].
  split; [exact Hd|]. split; [exact Hpush|]. split; [exact Hpy|].
  exact (pyexpat_return_after_exception_pops_caller true tracing_tracer
           (mkFrame "pyexpat.c" 1 0) PyNone tracing_tracer_ok
           tracing_tracer_written Hd Hpush Hpy
           (or_intror (conj eq_refl eq_refl))).
Defined.

(** The witness of X11: a Tracer deallocated inside a call of "a.py". *)
Lemma Tracer_dealloc_witness :
  levels_written tracing_tracer /\
  Tracer_dealloc tracing_tracer (Some 7%nat) = Some (None, ["a.py"]).
Proof.
  split; [exact tracing_tracer_written|].
  exact (proj1 (proj1 (Tracer_dealloc_releases_levels_in_use tracing_tracer
                         (Some 7%nat)) tracing_tracer_written)).
Defined.

(** The witness of X12: a Tracer stopped inside a call of "a.py" and
    started again. *)
Lemma stop_then_start_witness :
  run [event "a.py" 9 PyTrace_CALL]
      (fst (Tracer_start_hook 7 example_tracer None)) =
    Some (tracing_tracer, [0],
          [Enter PyTrace_CALL; Ask "a.py" (Some (PyString "a.py"))]) /\
  Tracer_stop_hook tracing_tracer (Some 7%nat) =
    (with_started false tracing_tracer, None) /\
  Tracer_start_hook 7 (with_started false tracing_tracer) None =
    (tracing_tracer, Some 7%nat).
Proof.
  assert (Hrun : run [event "a.py" 9 PyTrace_CALL]
                     (fst (Tracer_start_hook 7 example_tracer None)) =
                 Some (tracing_tracer, [0],
                       [Enter PyTrace_CALL; Ask "a.py" (Some (PyString "a.py"))]))
    by (vm_compute; reflexivity).
  destruct (stop_then_start_resumes 7 example_tracer None _ [] _ _ _ Hrun)
    as (_ & Hstop & Hstart & _).
  split; [exact Hrun|]. split; [exact Hstop|exact Hstart].
Defined.

(** The witness of X13: the file of pyexpat wherever it is installed. *)
Lemma is_pyexpat_witness :
  is_pyexpat pyexpat_frame = true /\
  exists pre post,
    PyString_AS_STRING (co_filename pyexpat_frame) =
      (pre ++ "pyexpat.c" ++ post)%string.
Proof.
  split; [reflexivity|].
  exact (proj1 (proj1 (is_pyexpat_iff_substring pyexpat_frame)) eq_refl).
Defined.

(** The witness of X14: lines 10 and 11 hit once, and hit again in
    another order. *)
Lemma line_events_witness :
  0 <= depth tracing_tracer /\
  read_slot (tracenames tracing_tracer) (depth tracing_tracer) = Some (Name "a.py") /\
  exists s,
    run lines_once tracing_tracer =
      Some (s, [0; 0], [Enter PyTrace_LINE; Enter PyTrace_LINE]) /\
    run lines_again tracing_tracer =
      Some (s, [0; 0; 0],
            [Enter PyTrace_LINE; Enter PyTrace_LINE; Enter PyTrace_LINE]).
Proof.
  assert (Hd : 0 <= depth tracing_tracer) by (vm_compute; congruence).
  assert (Hs : read_slot (tracenames tracing_tracer) (depth tracing_tracer) =
               Some (Name "a.py")) by reflexivity.
  assert (H1 : Forall (fun e => ev_what e = PyTrace_LINE) lines_once)
    by (repeat constructor).
  assert (H2 : Forall (fun e => ev_what e = PyTrace_LINE) lines_again)
    by (repeat constructor).
  assert (Hsame : forall l,
            (exists e, In e lines_once /\ f_lineno (ev_frame e) = l) <->
            (exists e, In e lines_again /\ f_lineno (ev_frame e) = l)).
  { intros l. split.
    - intros (e & [<-|[<-|[]]] & <-).
      + exists (event "a.py" 10 PyTrace_LINE). split; [right; left|]; reflexivity.
      + exists (event "a.py" 11 PyTrace_LINE). split; [left|]; reflexivity.
    - intros (e & [<-|[<-|[<-|[]]]] & <-).
      + exists (event "a.py" 11 PyTrace_LINE). split; [right; left|]; reflexivity.
      + exists (event "a.py" 10 PyTrace_LINE). split; [left|]; reflexivity.
      + exists (event "a.py" 11 PyTrace_LINE). split; [right; left|]; reflexivity. }
  destruct (line_events_record_a_set tracing_tracer "a.py" lines_once lines_again
              Hd Hs H1 H2 Hsame) as (s & Hr1 & Hr2 & _).
  split; [exact Hd|]. split; [exact Hs|]. exists s. split; [exact Hr1|exact Hr2].
Defined.


(** The witness of X16: [should_trace] raises on the first Call ever. *)
Lemma poisoned_witness :
  tracenames_ok example_tracer /\
  can_push true example_tracer /\
  should_trace_cache example_tracer !! "c.py" = None /\
  should_trace example_tracer "c.py" (mkFrame "c.py" 1 0) = None /\
  read_slot (tracenames example_tracer) (depth example_tracer + 1) =
    Some Indeterminate /\
  exists self',
    Tracer_trace true example_tracer (mkFrame "c.py" 1 0) PyTrace_CALL =
      Returned (-1) self' [Enter PyTrace_CALL; Ask "c.py" None] /\
    Tracer_trace true self' (mkFrame "c.py" 2 0) PyTrace_LINE = Undefined /\
    Tracer_dealloc self' None = None.
Proof.
  assert (Hpush : can_push true example_tracer) by (left; reflexivity).
  assert (Hmiss : should_trace_cache example_tracer !!
                    co_filename (mkFrame "c.py" 1 0) = None) by reflexivity.
  assert (Hfail : should_trace example_tracer (co_filename (mkFrame "c.py" 1 0))
                    (mkFrame "c.py" 1 0) = None) by reflexivity.
  assert (Hfresh : read_slot (tracenames example_tracer)
                     (depth example_tracer + 1) = Some Indeterminate)
    by reflexivity.
  destruct (failed_call_at_fresh_level_poisons true example_tracer
              (mkFrame "c.py" 1 0) example_tracer_ok Hpush Hmiss Hfail
              (or_intror Hfresh)) as (self' & Ht & _ & Hbad).
  destruct (Hbad true (mkFrame "c.py" 2 0) None) as (Hline & _ & _ & Hdealloc).
  split; [exact example_tracer_ok|]. split; [exact Hpush|].
  split; [exact Hmiss|]. split; [exact Hfail|]. split; [exact Hfresh|].
  exists self'. split; [exact Ht|]. split; [exact Hline|exact Hdealloc].
Defined.

(** The witness of X17: a second Call for "a.py", with a [should_trace]
    that would now raise. *)
Lemma cache_hit_witness :
  tracenames_ok tracing_tracer /\
  can_push true tracing_tracer /\
  should_trace_cache tracing_tracer !! "a.py" = Some (PyString "a.py") /\
  exists self',
    Tracer_trace true tracing_tracer (mkFrame "a.py" 20 0) PyTrace_CALL =
      Returned 0 self' [Enter PyTrace_CALL] /\
    read_slot (tracenames self') (depth self') = Some (Name "a.py") /\
    Tracer_trace true (with_should_trace (fun _ _ => None) tracing_tracer)
                 (mkFrame "a.py" 20 0) PyTrace_CALL =
      Returned 0 (with_should_trace (fun _ _ => None) self') [Enter PyTrace_CALL].
Proof.
  assert (Hpush : can_push true tracing_tracer) by (left; reflexivity).
  assert (Hhit : should_trace_cache tracing_tracer !!
                   co_filename (mkFrame "a.py" 20 0) = Some (PyString "a.py"))
    by reflexivity.
  destruct (cache_hit_uses_cached_decision true tracing_tracer
              (mkFrame "a.py" 20 0) (PyString "a.py") tracing_tracer_ok
              Hpush Hhit) as (self' & Ht & _ & _ & _ & Hslot & Hany).
  split; [exact tracing_tracer_ok|]. split; [exact Hpush|]. split; [exact Hhit|].
  exists self'. split; [exact Ht|]. split; [exact Hslot|]. apply Hany.
Defined.
